(** * n54-xdf-fun: the two XDF editing scripts, embedded and verified

    [src/n54-excel-validation-modifier.py] edits an XDF document from the rows
    of a spreadsheet; [src/xdf-freedom.py] renames categories and table titles.
    Both scripts parse the document with ElementTree, mutate texts and
    attributes in place and write the tree back.  The embedding keeps that
    shape: a document is an [Element] tree, a reference to a child is its
    position in the parent, and a run returns the tree that is written
    together with the lines it printed. *)

From Stdlib Require Import ZArith String Ascii List Bool Lia.
From Stdlib Require Import DecimalString.
From Stdlib Require Import Floats.SpecFloat.
From stdpp Require Import gmap strings list.

#[local] Set Warnings "-register-all".

Local Open Scope string_scope.
Local Open Scope Z_scope.

(** ** Python values and builtins *)

Module Py.

(** A Python [str] is held as the string of its UTF-8 bytes: equality, the
    empty string, concatenation and the search for an ASCII substring are the
    same on both sides, and a string of bytes below 128 is ASCII text. *)

(** What a spreadsheet cell holds once openpyxl has read it: nothing, text,
    an integer, a binary64 float, a boolean, a date or time of day (a
    [datetime], [date] or [time], by its ordinal), or a duration (a
    [timedelta], by its microseconds). *)
Inductive pyval :=
  | PNone
  | PStr (s : string)
  | PInt (z : Z)
  | PFloat (f : spec_float)
  | PBool (b : bool)
  | PDateTime (ordinal : Z)
  | PTimeDelta (microseconds : Z).

Inductive exn :=
  | AttributeError
  | ValueError
  | TypeError
  | OverflowError
  | IndexError.

Inductive result (A : Type) :=
  | Ok (a : A)
  | Raise (e : exn).
Arguments Ok {A} a.
Arguments Raise {A} e.

(** [bool(v)], the test behind [if v:] and [if not v:].  Dates and times are
    always true, a duration is false when it is zero. *)
Definition truthy (v : pyval) : bool :=
  match v with
  | PNone => false
  | PStr s => negb (String.eqb s "")
  | PInt z => negb (z =? 0)
  | PFloat (S754_zero _) => false
  | PFloat _ => true
  | PBool b => b
  | PDateTime _ => true
  | PTimeDelta us => negb (us =? 0)
  end.

(** [v is not None] *)
Definition is_not_None (v : pyval) : bool :=
  match v with PNone => false | _ => true end.

(** [isinstance(v, str)] *)
Definition is_text (v : pyval) : bool :=
  match v with PStr _ => true | _ => false end.

(** *** str.upper and str.strip *)

(** The two string methods the scripts call.  They are Python's, on every
    string; what the proofs use of them is stated as laws below, each of
    which a theorem assumes only when its proof needs it. *)
Class Builtins := {
  upper : string -> string;
  strip : string -> string
}.

(** The two methods on ASCII text: [upper] maps a-z to A-Z, and [strip] removes
    the characters for which [str.isspace] holds, which below 128 are tab,
    line feed, vertical tab, form feed, carriage return, the four separators
    28..31 and the space. *)
Definition upper_char (c : ascii) : ascii :=
  let n := N_of_ascii c in
  if ((97 <=? n) && (n <=? 122))%N then ascii_of_N (n - 32) else c.

Fixpoint ascii_upper (s : string) : string :=
  match s with
  | EmptyString => EmptyString
  | String c r => String (upper_char c) (ascii_upper r)
  end.

Definition is_space (c : ascii) : bool :=
  let n := N_of_ascii c in
  (((9 <=? n) && (n <=? 13)) || ((28 <=? n) && (n <=? 32)))%N.

Fixpoint lstrip (s : string) : string :=
  match s with
  | EmptyString => EmptyString
  | String c r => if is_space c then lstrip r else s
  end.

Fixpoint rstrip (s : string) : string :=
  match s with
  | EmptyString => EmptyString
  | String c r =>
      match rstrip r with
      | EmptyString => if is_space c then EmptyString else String c EmptyString
      | r' => String c r'
      end
  end.

Definition ascii_strip (s : string) : string := rstrip (lstrip s).

Fixpoint ascii_text (s : string) : bool :=
  match s with
  | EmptyString => true
  | String c r => (N_of_ascii c <? 128)%N && ascii_text r
  end.

(** On ASCII text the methods are the two functions above. *)
Class AsciiLaws `{Builtins} : Prop := {
  upper_ascii : forall s, ascii_text s = true -> upper s = ascii_upper s;
  strip_ascii : forall s, ascii_text s = true -> strip s = ascii_strip s
}.

(** Uppercasing twice is uppercasing once, and only the empty string has an
    empty uppercase form. *)
Class UpperLaws `{Builtins} : Prop := {
  upper_twice : forall s, upper (upper s) = upper s;
  upper_empty : forall s, upper s = "" -> s = ""
}.

(** Trimming twice is trimming once. *)
Class StripLaws `{Builtins} : Prop := {
  strip_twice : forall s, strip (strip s) = strip s
}.

(** Whitespace has no case and no uppercase form begins or ends with
    whitespace, so trimming and uppercasing commute. *)
Class StripUpperLaws `{Builtins} : Prop := {
  strip_upper : forall s, strip (upper s) = upper (strip s)
}.

(** The methods restricted to ASCII text, an instance for closed examples. *)
Definition ascii_builtins : Builtins :=
  {| upper := ascii_upper; strip := ascii_strip |}.

(** *** [needle in s] on strings *)

Fixpoint starts_with (p s : string) : bool :=
  match p, s with
  | EmptyString, _ => true
  | String a p', String b s' => Ascii.eqb a b && starts_with p' s'
  | String _ _, EmptyString => false
  end.

Fixpoint contains (needle s : string) : bool :=
  starts_with needle s ||
  match s with
  | EmptyString => false
  | String _ r => contains needle r
  end.

(** *** The format specification [.2f] *)

(** [n / d] rounded to the nearest integer, ties to even; [0 <= n], [0 < d]. *)
Definition div_half_even (n d : Z) : Z :=
  let q := n / d in
  let r := n mod d in
  if 2 * r <? d then q
  else if d <? 2 * r then q + 1
  else if Z.even q then q else q + 1.

(** The hundredths of [m * 2^e], correctly rounded. *)
Definition cents (m : positive) (e : Z) : Z :=
  if 0 <=? e then Z.pos m * 100 * 2 ^ e
  else div_half_even (Z.pos m * 100) (2 ^ (- e)).

Definition decimal (n : Z) : string :=
  NilZero.string_of_uint (N.to_uint (Z.to_N n)).

Definition fixed2 (negative : bool) (c : Z) : string :=
  (if negative then "-" else "")
    ++ decimal (c / 100) ++ "." ++ decimal (c / 10 mod 10) ++ decimal (c mod 10).

(** [format(x, '.2f')] for a float [x]. *)
Definition format_float_2f (x : spec_float) : string :=
  match x with
  | S754_nan => "nan"
  | S754_infinity s => if s then "-inf" else "inf"
  | S754_zero s => fixed2 s 0
  | S754_finite s m e => fixed2 s (cents m e)
  end.

(** [float(z)] for an int [z]: round to nearest even on 53 bits, and
    OverflowError beyond the binary64 range. *)
Definition float_of_int (z : Z) : result spec_float :=
  match binary_normalize 53 1024 z 0 false with
  | S754_infinity _ | S754_nan => Raise OverflowError
  | x => Ok x
  end.

Definition float_of_bool (b : bool) : spec_float :=
  if b then S754_finite false 1 0 else S754_zero false.

(** [f"{v:.2f}"]: floats are printed; ints and bools go through [float];
    text has no format code [f]; a date or time takes the specification as a
    [strftime] pattern, which has no directive and comes back as it is; None
    and durations take no format specification. *)
Definition format_2f (v : pyval) : result string :=
  match v with
  | PFloat x => Ok (format_float_2f x)
  | PInt z =>
      match float_of_int z with
      | Ok x => Ok (format_float_2f x)
      | Raise e => Raise e
      end
  | PBool b => Ok (format_float_2f (float_of_bool b))
  | PStr _ => Raise ValueError
  | PDateTime _ => Ok ".2f"
  | PNone => Raise TypeError
  | PTimeDelta _ => Raise TypeError
  end.

End Py.
Export Py.

(** ** ElementTree *)

Module ET.

(** An element as [xml.etree.ElementTree] holds it.  Attributes are kept in
    document order.  [content] is what the attribute [text] of the element
    holds: None or text after parsing, and whatever a script assigned to it
    afterwards; [tail] is None where the parser found no character data. *)
Inductive Element := mkElement {
  tag : string;
  attrib : list (string * string);
  content : pyval;
  tail : option string;
  children : list Element
}.

(** The text of an element that holds text. *)
Definition text (e : Element) : option string :=
  match content e with
  | PStr s => Some s
  | _ => None
  end.

Definition has_tag (t : string) (e : Element) : bool := String.eqb (tag e) t.

(** [e.get(key)] *)
Fixpoint assoc (key : string) (l : list (string * string)) : option string :=
  match l with
  | [] => None
  | (k, v) :: r => if String.eqb k key then Some v else assoc key r
  end.

Definition get (e : Element) (key : string) : option string := assoc key (attrib e).

(** [e.set(key, value)]: an attribute that exists keeps its place. *)
Fixpoint assoc_set (key value : string) (l : list (string * string)) : list (string * string) :=
  match l with
  | [] => [(key, value)]
  | (k, v) :: r => if String.eqb k key then (k, value) :: r else (k, v) :: assoc_set key value r
  end.

Definition set (key value : string) (e : Element) : Element :=
  mkElement (tag e) (assoc_set key value (attrib e)) (content e) (tail e) (children e).

(** [e.text = v], for any value [v], and for text or None. *)
Definition set_content (v : pyval) (e : Element) : Element :=
  mkElement (tag e) (attrib e) v (tail e) (children e).

Definition set_text (t : option string) (e : Element) : Element :=
  set_content (match t with Some s => PStr s | None => PNone end) e.

Definition with_children (e : Element) (l : list Element) : Element :=
  mkElement (tag e) (attrib e) (content e) (tail e) l.

(** [e.find(path)] returns the first child that matches, a reference into the
    tree: [find_first] reads through it, [update_first] writes through it. *)
Fixpoint find_first (p : Element -> bool) (l : list Element) : option Element :=
  match l with
  | [] => None
  | e :: r => if p e then Some e else find_first p r
  end.

Fixpoint update_first (p : Element -> bool) (f : Element -> Element) (l : list Element)
    : list Element :=
  match l with
  | [] => []
  | e :: r => if p e then f e :: r else e :: update_first p f r
  end.

(** The tree with the text of every element forgotten: what is left is the
    structure, the tags, the attributes and the tails. *)
Fixpoint without_text (e : Element) : Element :=
  match e with
  | mkElement t a _ tl cs => mkElement t a PNone tl (map without_text cs)
  end.

(** What the serializer accepts as the text of an element: text, and anything
    false, which it skips.  Any other value makes it raise TypeError. *)
Definition writable (v : pyval) : bool := is_text v || negb (truthy v).

Fixpoint serializable (e : Element) : bool :=
  match e with
  | mkElement _ _ c _ cs => writable c && forallb serializable cs
  end.

(** [tree.write(output_path, ...)], with the file system taken to accept the
    output: what is left to fail is the serializer. *)
Definition write (root : Element) : result Element :=
  if serializable root then Ok root else Raise TypeError.

(** The path [XDFAXIS[@id='z']] *)
Definition is_z_axis (e : Element) : bool :=
  has_tag "XDFAXIS" e && bool_decide (get e "id" = Some "z").

End ET.
Export ET.

(** ** n54-excel-validation-modifier.py *)

Module Spreadsheet.

(** One entry of [spreadsheet_data]: the four cells of a row, as they were
    read. *)
Record Row := {
  param_name : pyval;
  xdf_address : pyval;
  new_max : pyval;
  new_title : pyval
}.

(** [load_spreadsheet_data], on the rows of the first sheet, header row first;
    a row is the tuple of its cells.  The loop reads [row[0]] to [row[3]] of
    every row below the header, which raises IndexError on a row of fewer than
    four cells, and then skips the row when its name cell is false. *)
Fixpoint load_rows (rows : list (list pyval)) : result (list Row) :=
  match rows with
  | [] => Ok []
  | row :: rest =>
      match row with
      | a :: b :: c :: d :: _ =>
          match load_rows rest with
          | Ok data =>
              if negb (truthy a) then Ok data
              else Ok ({| param_name := a; xdf_address := b;
                          new_max := c; new_title := d |} :: data)
          | Raise e => Raise e
          end
      | _ => Raise IndexError
      end
  end.

Definition load_spreadsheet_data (sheet : list (list pyval)) : result (list Row) :=
  load_rows (drop 1 sheet).

(** The lines printed by [update_xdf_with_spreadsheet], one constructor per
    [print]. *)
Inductive diag :=
  | RenamedTitle (old_title new_title : pyval) (desired_addr : string)
  | UpdatedMax (old_max : option spec_float) (new_max : pyval) (desired_addr : string)
  | Warning (desired_addr : string) (param_name : pyval).

(** Where a run stands: the tree and the lines printed so far, and the exception
    that ended it, if one did.  After [Done] the tree goes to [tree.write];
    after [Raised] nothing is written. *)
Inductive outcome :=
  | Done (root : Element) (log : list diag)
  | Raised (e : exn) (root : Element) (log : list diag).

(** Example A: the title of the table. *)
Definition rename_title (new_title : pyval) (desired_addr : string)
    (table : Element) : Element * list diag :=
  if truthy new_title then
    match find_first (has_tag "title") (children table) with
    | Some title_elem =>
        (with_children table
           (update_first (has_tag "title") (set_content new_title) (children table)),
         [RenamedTitle (content title_elem) new_title desired_addr])
    | None => (table, [])
    end
  else (table, []).

Definition set_max (s : string) (z_axis : Element) : Element :=
  with_children z_axis
    (update_first (has_tag "max") (set_text (Some s)) (children z_axis)).

Definition put_table (root : Element) (i : nat) (table : Element) : Element :=
  with_children root (<[i := table]> (children root)).

Section WithBuiltins.

Context `{builtins : !Builtins}.

(** The address under which the first loop files a table: the [mmedaddress] of
    the first EMBEDDEDDATA of its first z axis, uppercased; none when one of
    the three is missing or the attribute is empty. *)
Definition table_address (table : Element) : option string :=
  match find_first is_z_axis (children table) with
  | Some z_axis =>
      match find_first (has_tag "EMBEDDEDDATA") (children z_axis) with
      | Some embed =>
          match get embed "mmedaddress" with
          | Some address => if String.eqb address "" then None else Some (upper address)
          | None => None
          end
      | None => None
      end
  | None => None
  end.

(** [tables_by_addr]: the loop over [root.findall('XDFTABLE')].  A table is
    referred to by its position among the children of the root. *)
Fixpoint index_tables (i : nat) (l : list Element) (acc : gmap string nat) : gmap string nat :=
  match l with
  | [] => acc
  | e :: r =>
      index_tables (S i) r
        (if has_tag "XDFTABLE" e
         then match table_address e with
              | Some address => <[address := i]> acc
              | None => acc
              end
         else acc)
  end.

Definition tables_by_addr (root : Element) : gmap string nat :=
  index_tables 0%nat (children root) ∅.

(** [desired_addr] of a row whose address cell holds the text [s]. *)
Definition normalized (s : string) : string := upper (strip s).

Section WithFloat.

(** [float(s)] for text [s], [None] where it raises. *)
Variable py_float : string -> option spec_float.

(** [try: old_max = float(old_max_str) except: old_max = None], on what the
    text of the max element holds: [float] reads text, takes numbers and
    booleans, and raises on everything else. *)
Definition old_max_of (old_max_str : pyval) : option spec_float :=
  match old_max_str with
  | PStr s => py_float s
  | PInt z => match float_of_int z with Ok x => Some x | Raise _ => None end
  | PFloat x => Some x
  | PBool b => Some (float_of_bool b)
  | PNone | PDateTime _ | PTimeDelta _ => None
  end.

(** Example B: the max of the z axis. *)
Definition raise_max (new_max : pyval) (desired_addr : string) (table : Element)
    : result (Element * list diag) :=
  if is_not_None new_max then
    match find_first is_z_axis (children table) with
    | Some z_axis =>
        match find_first (has_tag "max") (children z_axis) with
        | Some max_elem =>
            let old_max := old_max_of (content max_elem) in
            match format_2f new_max with
            | Ok s =>
                Ok (with_children table
                      (update_first is_z_axis (set_max s) (children table)),
                    [UpdatedMax old_max new_max desired_addr])
            | Raise e => Raise e
            end
        | None => Ok (table, [])
        end
    | None => Ok (table, [])
    end
  else Ok (table, []).

(** The body of the loop over [spreadsheet_data].  [table_elem] is the child of
    the root that the index refers to; the index only holds positions of
    children ([tables_by_addr_in_range]), so the lookup of the position finds
    one. *)
Definition process_row (index : gmap string nat) (row : Row)
    (root : Element) (log : list diag) : outcome :=
  if negb (truthy (xdf_address row)) then Done root log
  else
    match xdf_address row with
    | PStr s =>
        let desired_addr := upper (strip s) in
        match index !! desired_addr with
        | Some i =>
            match children root !! i with
            | Some table_elem =>
                let '(table1, log1) := rename_title (new_title row) desired_addr table_elem in
                match raise_max (new_max row) desired_addr table1 with
                | Ok (table2, log2) => Done (put_table root i table2) (log ++ log1 ++ log2)
                | Raise e => Raised e (put_table root i table1) (log ++ log1)
                end
            | None => Done root log
            end
        | None => Done root (log ++ [Warning desired_addr (param_name row)])
        end
    | _ => Raised AttributeError root log
    end.

Fixpoint process_rows (index : gmap string nat) (rows : list Row)
    (root : Element) (log : list diag) : outcome :=
  match rows with
  | [] => Done root log
  | row :: rest =>
      match process_row index row root log with
      | Done root' log' => process_rows index rest root' log'
      | Raised e root' log' => Raised e root' log'
      end
  end.

(** The run on the parsed document, up to [tree.write]. *)
Definition update_xdf_with_spreadsheet (root : Element) (spreadsheet_data : list Row)
    : outcome :=
  process_rows (tables_by_addr root) spreadsheet_data root [].

End WithFloat.

(** The address under which the first loop files a child of the root, and the
    child at position [i]. *)
Definition filed_under (e : Element) : option string :=
  if has_tag "XDFTABLE" e then table_address e else None.

Definition address_at (root : Element) (i : nat) : option string :=
  match children root !! i with
  | Some e => filed_under e
  | None => None
  end.


(** The warning a row gets when its address resolves nowhere; a row without an
    address gets none. *)
Definition warning_of (row : Row) : list diag :=
  match xdf_address row with
  | PStr s =>
      if String.eqb s "" then [] else [Warning (normalized s) (param_name row)]
  | _ => []
  end.

(** Rows that find no table: the address cell is empty, or it is text that the
    index does not hold once normalized. *)
Definition unresolved (index : gmap string nat) (row : Row) : Prop :=
  match xdf_address row with
  | PStr s => index !! normalized s = None
  | v => truthy v = false
  end.

End WithBuiltins.

(** What the claims observe of a table: the text of the max of its first z
    axis, the text of its title, and the outcome's tree. *)
Definition max_text (table : Element) : option (option string) :=
  match find_first is_z_axis (children table) with
  | Some z_axis => text <$> find_first (has_tag "max") (children z_axis)
  | None => None
  end.

Definition title_text (table : Element) : option (option string) :=
  text <$> find_first (has_tag "title") (children table).

Definition tree_of (o : outcome) : Element :=
  match o with
  | Done root _ => root
  | Raised _ root _ => root
  end.

Definition log_of (o : outcome) : list diag :=
  match o with
  | Done _ log => log
  | Raised _ _ log => log
  end.

(** The outcome of a run that started after [log] had been printed. *)
Definition after (log : list diag) (o : outcome) : outcome :=
  match o with
  | Done root log' => Done root (log ++ log')
  | Raised e root log' => Raised e root (log ++ log')
  end.

(** Rows that cannot end a run or spoil the output: the address cell is false
    or text, the bound cell is None or something [.2f] formats, and the title
    cell is false or text. *)
Definition safe_row (row : Row) : bool :=
  match xdf_address row with
  | PStr _ => true
  | v => negb (truthy v)
  end &&
  match new_max row, format_2f (new_max row) with
  | PNone, _ => true
  | _, Ok _ => true
  | _, Raise _ => false
  end &&
  writable (new_title row).

(** The cells a loaded row was made of, and the rows of a sheet that have a
    name. *)
Definition cells_of (row : Row) : list pyval :=
  [param_name row; xdf_address row; new_max row; new_title row].

Definition named (cells : list pyval) : bool :=
  match cells with
  | a :: _ => truthy a
  | [] => false
  end.

(** Rows that agree on everything but the address cell. *)
Definition same_edit (r1 r2 : Row) : Prop :=
  param_name r1 = param_name r2 /\ new_max r1 = new_max r2 /\ new_title r1 = new_title r2.

(** How [main] ends: [sys.exit(1)] after an error line, the output file
    written, or an exception that nothing catches. *)
Inductive ended :=
  | Exit1 (message : string)
  | Wrote (root : Element) (log : list diag)
  | Uncaught (e : exn) (log : list diag).

Section Main.

Context `{builtins : !Builtins}.
Variable py_float : string -> option spec_float.

(** [main], on what the two input paths hold: [None] for a path that is no
    file, the parsed document and the rows of the first sheet otherwise. *)
Definition main (xdf_file : option Element) (spreadsheet_file : option (list (list pyval)))
    : ended :=
  match xdf_file with
  | None => Exit1 "Error: XDF file 'I8A0S Custom.xdf' not found."
  | Some root =>
      match spreadsheet_file with
      | None => Exit1 "Error: XLSX file 'N5X Tuning Spreadsheet.xlsx' not found."
      | Some sheet =>
          match load_spreadsheet_data sheet with
          | Raise e => Uncaught e []
          | Ok spreadsheet_data =>
              match update_xdf_with_spreadsheet py_float root spreadsheet_data with
              | Done root' log =>
                  match write root' with
                  | Ok written => Wrote written log
                  | Raise e => Uncaught e log
                  end
              | Raised e _ log => Uncaught e log
              end
          end
      end
  end.

End Main.

(** An instance of [float] for closed examples: it reads plain digit strings
    and raises on everything else. *)
Fixpoint digits_value (s : string) (acc : Z) : option Z :=
  match s with
  | EmptyString => Some acc
  | String c r =>
      let n := N_of_ascii c in
      if ((48 <=? n) && (n <=? 57))%N
      then digits_value r (10 * acc + Z.of_N (n - 48))
      else None
  end.

Definition digits_float (s : string) : option spec_float :=
  match s with
  | EmptyString => None
  | _ =>
      match digits_value s 0 with
      | Some z => Some (binary_normalize 53 1024 z 0 false)
      | None => None
      end
  end.

End Spreadsheet.

(** ** xdf-freedom.py *)

Module Freedom.

(** The lines printed by [update_xdf_for_high_performance]. *)
Inductive line :=
  | RenamedCategory (old_name new_name : string)
  | RenamedTable (old_title new_title : string).

Section Prompts.

Context `{builtins : !Builtins}.

(** [prompt_user_for_menu_updates], on the four answers typed at the prompts. *)
Definition answer (typed fallback : string) : string :=
  let a := strip typed in
  if String.eqb a "" then fallback else a.

Definition prompt_user_for_menu_updates (boost fuel ign limits : string)
    : gmap string string :=
  <["Limits" := answer limits "RACE: Safety Limits"]>
    (<["Ignition" := answer ign "RACE: Spark & Timing"]>
       (<["Fuel" := answer fuel "RACE: Fuel & AFR"]>
          (<["Boost Control" := answer boost "RACE: Maximum Boost Control"]> ∅))).

End Prompts.

(** A loop [for e in parent.findall(tag): body(e)] that mutates the elements it
    visits and prints as it goes. *)
Fixpoint for_each (p : Element -> bool) (body : Element -> Element * list line)
    (l : list Element) : list Element * list line :=
  match l with
  | [] => ([], [])
  | e :: r =>
      let '(e', log1) := if p e then body e else (e, []) in
      let '(r', log2) := for_each p body r in
      (e' :: r', (log1 ++ log2)%list)
  end.

(** The body of the loop over the categories of the header. *)
Definition rename_category (rename_map : gmap string string) (cat : Element)
    : Element * list line :=
  let old_name := default "" (get cat "name") in
  match rename_map !! old_name with
  | Some new_name => (set "name" new_name cat, [RenamedCategory old_name new_name])
  | None => (cat, [])
  end.

Definition rename_in_header (rename_map : gmap string string) (xdf_header : Element)
    : Element * list line :=
  let '(cats, log) :=
    for_each (has_tag "CATEGORY") (rename_category rename_map) (children xdf_header) in
  (with_children xdf_header cats, log).

(** The category-rename step: the CATEGORY children of the first XDFHEADER of
    the root. *)
Definition rename_categories (rename_map : gmap string string) (root : Element)
    : Element * list line :=
  match find_first (has_tag "XDFHEADER") (children root) with
  | Some xdf_header =>
      (with_children root
         (update_first (has_tag "XDFHEADER")
            (fun h => fst (rename_in_header rename_map h)) (children root)),
       snd (rename_in_header rename_map xdf_header))
  | None => (root, [])
  end.

(** The body of the loop over the tables.  The document is what [ET.parse]
    returned, in which an element holds text or None. *)
Definition retitle_table (table : Element) : Element * list line :=
  match find_first (has_tag "title") (children table) with
  | Some title_elem =>
      match text title_elem with
      | Some old_title =>
          if negb (String.eqb old_title "") && contains "Ignition" old_title then
            let new_title := "RACE HIGH PERF " ++ old_title in
            (with_children table
               (update_first (has_tag "title") (set_text (Some new_title))
                  (children table)),
             [RenamedTable old_title new_title])
          else (table, [])
      | None => (table, [])
      end
  | None => (table, [])
  end.

(** The conditional title rename: every XDFTABLE child of the root. *)
Definition retitle_tables (root : Element) : Element * list line :=
  let '(tables, log) := for_each (has_tag "XDFTABLE") retitle_table (children root) in
  (with_children root tables, log).

(** The run on the parsed document, up to [tree.write]. *)
Definition update_xdf_for_high_performance (root : Element)
    (rename_map : gmap string string) : Element * list line :=
  let '(root1, log1) := rename_categories rename_map root in
  let '(root2, log2) := retitle_tables root1 in
  (root2, (log1 ++ log2)%list).

(** How [main] ends, and [main] on what the input path holds and on the four
    answers typed at the prompts. *)
Inductive ended :=
  | Exit1 (message : string)
  | Wrote (root : Element) (log : list line).

Section Main.

Context `{builtins : !Builtins}.

Definition main (xdf_file : option Element) (boost fuel ign limits : string) : ended :=
  match xdf_file with
  | None => Exit1 "Error: I8A0S Custom.xdf not found in current directory."
  | Some root =>
      let rename_map := prompt_user_for_menu_updates boost fuel ign limits in
      let '(root', log) := update_xdf_for_high_performance root rename_map in
      Wrote root' log
  end.

End Main.

(** The four menu names the prompts ask about, which are the keys of the map
    they give. *)
Definition menu_names : list string := ["Boost Control"; "Fuel"; "Ignition"; "Limits"].

(** The category-rename step as a function on trees. *)
Definition renamed (rename_map : gmap string string) (root : Element) : Element :=
  fst (rename_categories rename_map root).

(** No replacement name is itself a name to replace. *)
Definition no_value_is_key (rename_map : gmap string string) : Prop :=
  forall k v, rename_map !! k = Some v -> rename_map !! v = None.

(** The node reached from [e] by descending through the child positions of
    [path]. *)
Fixpoint node_at (path : list nat) (e : Element) : option Element :=
  match path with
  | [] => Some e
  | i :: rest =>
      match children e !! i with
      | Some c => node_at rest c
      | None => None
      end
  end.

End Freedom.

(** ** Documents used in the closed examples *)

Module Samples.
Import Spreadsheet Freedom.

(** The closed examples are ASCII text, on which the ASCII instance of the
    string methods is what Python computes. *)
#[local] Existing Instance ascii_builtins.

Definition cell (t : option string) : pyval :=
  match t with
  | Some s => PStr s
  | None => PNone
  end.

Definition leaf (t : string) (a : list (string * string)) (txt : option string) : Element :=
  mkElement t a (cell txt) None [].

Definition node (t : string) (a : list (string * string)) (l : list Element) : Element :=
  mkElement t a PNone None l.

(** A z axis holding an address and a max, and a table with a title, an x
    axis and such a z axis. *)
Definition z_axis_of (address max : string) : Element :=
  node "XDFAXIS" [("id", "z")]
    [ leaf "EMBEDDEDDATA" [("mmedaddress", address)] None;
      leaf "min" [] (Some "0.00");
      leaf "max" [] (Some max) ].

Definition table (title address max : string) : Element :=
  node "XDFTABLE" [("uniqueid", "0x1")]
    [ leaf "title" [] (Some title);
      node "XDFAXIS" [("id", "x")] [leaf "max" [] (Some "10.00")];
      z_axis_of address max ].

Definition header : Element :=
  node "XDFHEADER" []
    [ leaf "deftitle" [] (Some "I8A0S");
      leaf "CATEGORY" [("index", "0x0"); ("name", "Boost Control")] None;
      leaf "CATEGORY" [("index", "0x1"); ("name", "Fuel")] None;
      leaf "CATEGORY" [("index", "0x2"); ("name", "Vanos")] None ].

Definition doc : Element :=
  node "XDFFORMAT" [("version", "1.60")]
    [ header;
      table "Boost Ceiling" "0x4076A" "255";
      table "Ignition Timing Base" "0x50A10" "n/a" ].

(** The same document with a category element inside its first table. *)
Definition doc_with_table_category : Element :=
  node "XDFFORMAT" [("version", "1.60")]
    [ header;
      node "XDFTABLE" []
        [ leaf "title" [] (Some "Boost Ceiling");
          leaf "CATEGORY" [("name", "Fuel")] None ] ].

(** Two tables that carry the same address up to letter case, and one whose
    address attribute starts with a space. *)
Definition doc_with_duplicates : Element :=
  node "XDFFORMAT" []
    [ table "Boost Ceiling" "0x4076a" "255";
      table "Boost Ceiling (copy)" "0x4076A" "255" ].

Definition doc_with_padded_address : Element :=
  node "XDFFORMAT" [] [ header; table "Boost Ceiling" " 0x4076A" "255" ].

Definition row (name : string) (address new_max : pyval) (title : option string) : Row :=
  {| param_name := PStr name; xdf_address := address; new_max := new_max;
     new_title := cell title |}.

(** A sheet whose second data row has no name, and whose first holds the bound
    as text. *)
Definition sheet_with_text_bound : list (list pyval) :=
  [ [PStr "Parameter Name"; PStr "XDF Address"; PStr "NewMax"; PStr "NewTitle"];
    [PStr "Boost"; PStr "0x4076A"; PStr "300"; PNone];
    [PNone; PStr "0x4076A"; PInt 1; PNone];
    [PStr "Timing"; PStr "0x50A10"; PInt 5; PNone] ].

(** A document whose first table has no title element and whose second has no
    max under its z axis, and one in which a run of the renamer finds nothing
    to rename. *)
Definition doc_with_gaps : Element :=
  node "XDFFORMAT" []
    [ node "XDFTABLE" [] [z_axis_of "0xA0" "7"];
      node "XDFTABLE" []
        [ leaf "title" [] (Some "Load Axis");
          node "XDFAXIS" [("id", "z")]
            [leaf "EMBEDDEDDATA" [("mmedaddress", "0xB0")] None] ] ].

Definition doc_without_matches : Element :=
  node "XDFFORMAT" []
    [ node "XDFHEADER" [] [leaf "CATEGORY" [("name", "Vanos")] None];
      table "Boost Ceiling" "0x4076A" "255" ].

(** The map the prompts give when every answer is left empty. *)
Definition default_map : gmap string string :=
  prompt_user_for_menu_updates "" "" "" "".

End Samples.


(** ** The string methods on ASCII text *)

Section AsciiFacts.

Lemma upper_char_twice c : upper_char (upper_char c) = upper_char c.
Proof. destruct c as [[] [] [] [] [] [] [] []]; reflexivity. Qed.

Lemma is_space_upper_char c : is_space (upper_char c) = is_space c.
Proof. destruct c as [[] [] [] [] [] [] [] []]; reflexivity. Qed.

Lemma ascii_upper_twice s : ascii_upper (ascii_upper s) = ascii_upper s.
Proof. induction s as [|c s IH]; simpl; [done|]. by rewrite upper_char_twice, IH. Qed.

Lemma ascii_upper_empty s : ascii_upper s = "" -> s = "".
Proof. by destruct s. Qed.

Lemma lstrip_upper s : lstrip (ascii_upper s) = ascii_upper (lstrip s).
Proof.
  induction s as [|c s IH]; simpl; [done|].
  rewrite is_space_upper_char. by destruct (is_space c).
Qed.

Lemma rstrip_upper s : rstrip (ascii_upper s) = ascii_upper (rstrip s).
Proof.
  induction s as [|c s IH]; simpl; [done|].
  rewrite IH, is_space_upper_char.
  destruct (rstrip s); simpl; [by destruct (is_space c)|done].
Qed.

Lemma ascii_strip_upper s : ascii_strip (ascii_upper s) = ascii_upper (ascii_strip s).
Proof. unfold ascii_strip. by rewrite lstrip_upper, rstrip_upper. Qed.

(** What [lstrip] returns does not start with a space, and [rstrip] keeps such
    a start. *)
Lemma lstrip_head s :
  lstrip s = "" \/ exists c r, lstrip s = String c r /\ is_space c = false.
Proof.
  induction s as [|c s IH]; simpl; [by left|].
  destruct (is_space c) eqn:Hc; [done|]. right. by exists c, s.
Qed.

Lemma rstrip_head c r :
  is_space c = false -> exists r', rstrip (String c r) = String c r'.
Proof.
  intros Hc. simpl. rewrite Hc. destruct (rstrip r); eauto.
Qed.

Lemma rstrip_twice s : rstrip (rstrip s) = rstrip s.
Proof.
  induction s as [|c s IH]; simpl; [done|].
  destruct (rstrip s) as [|c' r'] eqn:Hr.
  - destruct (is_space c) eqn:Hc; simpl; [done|]. by rewrite Hc.
  - change (rstrip (String c (String c' r'))) with
      (match rstrip (String c' r') with
       | EmptyString => if is_space c then EmptyString else String c EmptyString
       | r'' => String c r''
       end).
    rewrite IH. done.
Qed.

Lemma ascii_strip_twice s : ascii_strip (ascii_strip s) = ascii_strip s.
Proof.
  unfold ascii_strip. destruct (lstrip_head s) as [->|(c & r & -> & Hc)]; [done|].
  destruct (rstrip_head c r Hc) as [r' Hr]. rewrite Hr. simpl lstrip.
  rewrite Hc, <- Hr. apply rstrip_twice.
Qed.

(** The ASCII instance keeps every law. *)
Lemma ascii_laws : @AsciiLaws ascii_builtins.
Proof. by split. Qed.

Lemma ascii_upper_laws : @UpperLaws ascii_builtins.
Proof. split; [apply ascii_upper_twice|apply ascii_upper_empty]. Qed.

Lemma ascii_strip_laws : @StripLaws ascii_builtins.
Proof. split. apply ascii_strip_twice. Qed.

Lemma ascii_strip_upper_laws : @StripUpperLaws ascii_builtins.
Proof. split. apply ascii_strip_upper. Qed.

End AsciiFacts.

(** ** The format [.2f] on examples *)

Section FormatFacts.

Lemma format_2f_float x : format_2f (PFloat x) = Ok (format_float_2f x).
Proof. reflexivity. Qed.

Lemma format_2f_text s : format_2f (PStr s) = Raise ValueError.
Proof. reflexivity. Qed.

(** 300, 0 and -5 as ints; 0.125 lies halfway and goes to the even cent, 0.375
    to the even cent above; a negative float that rounds to zero keeps its
    sign; 2^1024 is beyond the floats. *)
Example format_2f_300 : format_2f (PInt 300) = Ok "300.00".
Proof. by vm_compute. Qed.

Example format_2f_0 : format_2f (PInt 0) = Ok "0.00".
Proof. by vm_compute. Qed.

Example format_2f_minus_5 : format_2f (PInt (-5)) = Ok "-5.00".
Proof. by vm_compute. Qed.

Example format_2f_eighth : format_2f (PFloat (S754_finite false 1 (-3))) = Ok "0.12".
Proof. by vm_compute. Qed.

Example format_2f_three_eighths : format_2f (PFloat (S754_finite false 3 (-3))) = Ok "0.38".
Proof. by vm_compute. Qed.

Example format_2f_small_negative : format_2f (PFloat (S754_finite true 1 (-10))) = Ok "-0.00".
Proof. by vm_compute. Qed.

Example format_2f_huge_int : format_2f (PInt (2 ^ 1024)) = Raise OverflowError.
Proof. by vm_compute. Qed.

Example normalized_padded : @Spreadsheet.normalized ascii_builtins "  0x4076a	" = "0X4076A".
Proof. by vm_compute. Qed.

End FormatFacts.

(** ** Facts about the ElementTree operations *)

Section ElementTreeFacts.

Lemma has_tag_true t e : has_tag t e = true <-> tag e = t.
Proof. unfold has_tag. apply String.eqb_eq. Qed.

Lemma has_tag_set_content t v e : has_tag t (set_content v e) = has_tag t e.
Proof. reflexivity. Qed.

Lemma is_z_axis_set_content v e : is_z_axis (set_content v e) = is_z_axis e.
Proof. reflexivity. Qed.

Lemma has_tag_set_text t o e : has_tag t (set_text o e) = has_tag t e.
Proof. reflexivity. Qed.

Lemma is_z_axis_set_text o e : is_z_axis (set_text o e) = is_z_axis e.
Proof. reflexivity. Qed.

Lemma text_set_text o e : text (set_text o e) = o.
Proof. by destruct o. Qed.

Lemma text_set_content s e : text (set_content (PStr s) e) = Some s.
Proof. reflexivity. Qed.

Lemma is_z_axis_with_children e l : is_z_axis (with_children e l) = is_z_axis e.
Proof. reflexivity. Qed.

Lemma with_children_id e : with_children e (children e) = e.
Proof. by destruct e. Qed.

Lemma has_tag_distinct t u e : t <> u -> has_tag t e = true -> has_tag u e = false.
Proof.
  intros Hne Ht. apply has_tag_true in Ht. unfold has_tag.
  apply String.eqb_neq. congruence.
Qed.

Lemma is_z_axis_tag e : is_z_axis e = true -> tag e = "XDFAXIS".
Proof. unfold is_z_axis. intros [H _]%andb_prop. by apply has_tag_true. Qed.

(** Writing through the reference [find] returned reaches the element that a
    later [find] with the same path returns. *)
Lemma find_update_same p f l e :
  find_first p l = Some e -> p (f e) = true ->
  find_first p (update_first p f l) = Some (f e).
Proof.
  induction l as [|x l IH]; simpl; [done|].
  destruct (p x) eqn:Hx; simpl.
  - intros [= ->] Hf. by rewrite Hf.
  - intros Hl Hf. rewrite Hx. by apply IH.
Qed.

Lemma find_first_holds p l e : find_first p l = Some e -> p e = true.
Proof.
  induction l as [|x l IH]; simpl; [done|].
  destruct (p x) eqn:Hx; [|done]. by intros [= <-].
Qed.

Lemma find_update_none p f l :
  find_first p l = None -> update_first p f l = l.
Proof.
  induction l as [|x l IH]; simpl; [done|].
  destruct (p x); [done|]. intros H. by rewrite IH.
Qed.

(** Writing through a reference found under another path leaves this path's
    answer alone. *)
Lemma find_update_other p q f l :
  (forall e, q e = true -> p e = false) -> (forall e, p (f e) = p e) ->
  find_first p (update_first q f l) = find_first p l.
Proof.
  intros Hqp Hf. induction l as [|x l IH]; simpl; [done|].
  destruct (q x) eqn:Hq; simpl.
  - by rewrite Hf, (Hqp _ Hq).
  - by rewrite IH.
Qed.

Lemma update_first_found p f l e :
  find_first p l = Some e -> update_first p f l = update_first p (fun _ => f e) l.
Proof.
  induction l as [|x l IH]; simpl; [done|].
  destruct (p x); [by intros [= ->]|]. intros H. by rewrite IH.
Qed.

Lemma update_first_length p f l : length (update_first p f l) = length l.
Proof.
  induction l as [|x l IH]; simpl; [done|].
  destruct (p x); simpl; by rewrite ?IH.
Qed.

Lemma update_first_lookup_other p f l k e :
  l !! k = Some e -> p e = false -> update_first p f l !! k = Some e.
Proof.
  revert k. induction l as [|x l IH]; intros k; simpl; [done|].
  destruct k as [|k]; simpl.
  - intros [= ->] Hp. by rewrite Hp.
  - intros Hk Hp. destruct (p x); simpl; [done|]. by apply IH.
Qed.

Lemma assoc_set_same key value l : assoc key (assoc_set key value l) = Some value.
Proof.
  induction l as [|[k v] l IH]; simpl.
  - by rewrite String.eqb_refl.
  - destruct (String.eqb k key) eqn:Hk; simpl; by rewrite Hk.
Qed.

Lemma get_set key value e : get (set key value e) key = Some value.
Proof. apply assoc_set_same. Qed.

Lemma lookup_map (g : Element -> Element) l k : map g l !! k = g <$> l !! k.
Proof. revert k. induction l as [|x l IH]; intros [|k]; simpl; done. Qed.

End ElementTreeFacts.

(** ** The structure of the tree through a spreadsheet run *)

Section StructureFacts.

Lemma without_text_eq e :
  without_text e
  = mkElement (tag e) (attrib e) PNone (tail e) (map without_text (children e)).
Proof. by destruct e. Qed.

Lemma without_text_set_content v e : without_text (set_content v e) = without_text e.
Proof. by destruct e. Qed.

Lemma without_text_set_text o e : without_text (set_text o e) = without_text e.
Proof. apply without_text_set_content. Qed.

Lemma without_text_with_children e l :
  without_text (with_children e l)
  = mkElement (tag e) (attrib e) PNone (tail e) (map without_text l).
Proof. by destruct e. Qed.

Lemma has_tag_without_text t e : has_tag t (without_text e) = has_tag t e.
Proof. by destruct e. Qed.

Lemma get_without_text e key : get (without_text e) key = get e key.
Proof. by destruct e. Qed.

Lemma is_z_axis_without_text e : is_z_axis (without_text e) = is_z_axis e.
Proof. by destruct e. Qed.

Lemma children_without_text e :
  children (without_text e) = map without_text (children e).
Proof. by destruct e. Qed.

Lemma map_update_first (g : Element -> Element) p f l :
  (forall e, g (f e) = g e) -> map g (update_first p f l) = map g l.
Proof.
  intros Hg. induction l as [|x l IH]; simpl; [done|].
  destruct (p x); simpl; by rewrite ?Hg, ?IH.
Qed.

Lemma map_insert_same (g : Element -> Element) l i x y :
  l !! i = Some x -> g y = g x -> map g (<[i := y]> l) = map g l.
Proof.
  revert i. induction l as [|z l IH]; intros [|i]; simpl; try done.
  - intros [= ->] ->. done.
  - intros Hi Hg. by rewrite (IH i).
Qed.

Lemma find_first_without_text p l :
  (forall e, p (without_text e) = p e) ->
  find_first p (map without_text l) = without_text <$> find_first p l.
Proof.
  intros Hp. induction l as [|x l IH]; simpl; [done|].
  rewrite Hp. by destruct (p x).
Qed.

(** Two lists of children with the same structure answer a [find] alike. *)
Lemma find_first_same_structure p l l' :
  (forall e, p (without_text e) = p e) ->
  map without_text l = map without_text l' ->
  without_text <$> find_first p l = without_text <$> find_first p l'.
Proof.
  intros Hp Hl. by rewrite <- !find_first_without_text, Hl.
Qed.

Lemma with_children_without_text e l :
  map without_text l = map without_text (children e) ->
  without_text (with_children e l) = without_text e.
Proof. intros H. by rewrite without_text_with_children, H, <- without_text_eq. Qed.

End StructureFacts.

(** ** Facts about the spreadsheet-driven editor *)

Import Spreadsheet.

Section IndexFacts.

Context `{builtins : !Builtins}.

Lemma index_tables_step i e r acc :
  index_tables i (e :: r) acc =
  index_tables (S i) r
    (match filed_under e with Some a => <[a := i]> acc | None => acc end).
Proof. unfold filed_under. simpl. by destruct (has_tag "XDFTABLE" e). Qed.

(** An address that no table carries keeps the entry it had. *)
Lemma index_tables_miss a l : forall i acc,
  (forall j e, l !! j = Some e -> filed_under e <> Some a) ->
  index_tables i l acc !! a = acc !! a.
Proof.
  induction l as [|x l IH]; intros i acc Hno; [done|].
  rewrite index_tables_step, IH.
  - pose proof (Hno 0%nat x eq_refl) as Hx.
    destruct (filed_under x) as [b|]; [|done].
    apply lookup_insert_ne. congruence.
  - intros j e Hj. apply (Hno (S j) e Hj).
Qed.

(** Last write wins: the entry of an address is the last table that carries it. *)
Lemma index_tables_last a l : forall i acc j e,
  l !! j = Some e -> filed_under e = Some a ->
  (forall j' e', (j < j')%nat -> l !! j' = Some e' -> filed_under e' <> Some a) ->
  index_tables i l acc !! a = Some (i + j)%nat.
Proof.
  induction l as [|x l IH]; intros i acc j e Hj He Hlast; [done|].
  rewrite index_tables_step. destruct j as [|j]; simpl in Hj.
  - injection Hj as ->. rewrite He, index_tables_miss.
    + rewrite lookup_insert_eq. f_equal. lia.
    + intros j' e' Hj'. apply (Hlast (S j') e'); [lia|done].
  - rewrite (IH (S i) _ j e Hj He).
    + f_equal. lia.
    + intros j' e' Hlt Hj'. apply (Hlast (S j') e'); [lia|done].
Qed.

(** Every entry of the index refers to a table that carries the address. *)
Lemma index_tables_sound a l : forall i acc k,
  index_tables i l acc !! a = Some k ->
  acc !! a = Some k \/
  exists j e, k = (i + j)%nat /\ l !! j = Some e /\ filed_under e = Some a.
Proof.
  induction l as [|x l IH]; intros i acc k; [by left|].
  rewrite index_tables_step. intros H. apply IH in H as [H|(j & e & -> & Hj & He)].
  - destruct (filed_under x) as [b|] eqn:Hx; [|by left].
    destruct (decide (b = a)) as [->|Hne].
    + rewrite lookup_insert_eq in H. injection H as <-.
      right. exists 0%nat, x. split; [lia|done].
    + rewrite lookup_insert_ne in H by done. by left.
  - right. exists (S j), e. split; [lia|done].
Qed.

Lemma tables_by_addr_last root a j :
  address_at root j = Some a ->
  (forall j', (j < j')%nat -> address_at root j' <> Some a) ->
  tables_by_addr root !! a = Some j.
Proof.
  unfold address_at, tables_by_addr. intros Hj Hlast.
  destruct (children root !! j) as [e|] eqn:He; [|done].
  apply (index_tables_last a (children root) 0%nat ∅ j e He Hj).
  intros j' e' Hlt Hj'. specialize (Hlast j' Hlt). by rewrite Hj' in Hlast.
Qed.

Lemma tables_by_addr_sound root a k :
  tables_by_addr root !! a = Some k -> address_at root k = Some a.
Proof.
  unfold tables_by_addr, address_at. intros H.
  apply index_tables_sound in H as [H|(j & e & -> & Hj & He)].
  - by rewrite lookup_empty in H.
  - simpl. by rewrite Hj.
Qed.

Lemma tables_by_addr_in_range root a i :
  tables_by_addr root !! a = Some i ->
  exists table, children root !! i = Some table /\ has_tag "XDFTABLE" table = true.
Proof.
  intros H. apply tables_by_addr_sound in H. unfold address_at, filed_under in H.
  destruct (children root !! i) as [table|]; [|done].
  exists table. split; [done|]. by destruct (has_tag "XDFTABLE" table).
Qed.

Lemma tables_by_addr_miss root a :
  (forall j, address_at root j <> Some a) -> tables_by_addr root !! a = None.
Proof.
  intros Hno. unfold tables_by_addr. rewrite index_tables_miss; [done|].
  intros j e Hj. specialize (Hno j). unfold address_at in Hno. by rewrite Hj in Hno.
Qed.

End IndexFacts.

Section EditorFacts.

Context `{builtins : !Builtins}.

Variable py_float : string -> option spec_float.

Lemma truthy_text s : truthy (PStr s) = true <-> s <> "".
Proof.
  simpl. rewrite negb_true_iff. apply String.eqb_neq.
Qed.

Lemma title_not_axis e : has_tag "title" e = true -> is_z_axis e = false.
Proof.
  intros H. unfold is_z_axis. by rewrite (has_tag_distinct "title" "XDFAXIS" e).
Qed.

Lemma axis_not_title e : is_z_axis e = true -> has_tag "title" e = false.
Proof.
  intros H. apply is_z_axis_tag in H. unfold has_tag. rewrite H. reflexivity.
Qed.

(** The title mutation leaves the z axis of the table as it was. *)
Lemma rename_title_axis t a table :
  find_first is_z_axis (children (fst (rename_title t a table)))
  = find_first is_z_axis (children table).
Proof.
  unfold rename_title. destruct (truthy t); [|done].
  destruct (find_first (has_tag "title") (children table)); [|done].
  simpl. apply find_update_other; [apply title_not_axis|apply is_z_axis_set_content].
Qed.

Lemma rename_title_max_text t a table :
  max_text (fst (rename_title t a table)) = max_text table.
Proof. unfold max_text. by rewrite rename_title_axis. Qed.

(** A title that is None or empty is no title: nothing is touched or printed. *)
Lemma rename_title_absent t a table :
  truthy t = false -> rename_title t a table = (table, []).
Proof. unfold rename_title. by intros ->. Qed.

Lemma format_2f_not_None v s : format_2f v = Ok s -> is_not_None v = true.
Proof. by destruct v. Qed.

(** The bound mutation on a table that has a z axis with a max. *)
Lemma raise_max_written v a table z_axis max_elem s :
  find_first is_z_axis (children table) = Some z_axis ->
  find_first (has_tag "max") (children z_axis) = Some max_elem ->
  format_2f v = Ok s ->
  raise_max py_float v a table
  = Ok (with_children table (update_first is_z_axis (set_max s) (children table)),
        [UpdatedMax (old_max_of py_float (content max_elem)) v a]).
Proof.
  intros Hz Hm Hf. unfold raise_max.
  by rewrite (format_2f_not_None v s Hf), Hz, Hm, Hf.
Qed.

Lemma set_max_max_text s table z_axis max_elem :
  find_first is_z_axis (children table) = Some z_axis ->
  find_first (has_tag "max") (children z_axis) = Some max_elem ->
  max_text (with_children table (update_first is_z_axis (set_max s) (children table)))
  = Some (Some s).
Proof.
  intros Hz Hm. unfold max_text. simpl.
  rewrite (find_update_same _ _ _ z_axis Hz).
  - unfold set_max at 1. simpl.
    rewrite (find_update_same _ _ _ max_elem Hm); [done|].
    rewrite has_tag_set_text. by apply find_first_holds in Hm.
  - unfold set_max. rewrite is_z_axis_with_children.
    by apply find_first_holds in Hz.
Qed.

Lemma set_max_title_text s table :
  title_text (with_children table (update_first is_z_axis (set_max s) (children table)))
  = title_text table.
Proof.
  unfold title_text. simpl. f_equal.
  apply find_update_other; [apply axis_not_title|reflexivity].
Qed.

(** Text has no format code [f]: the bound mutation raises once it has found
    the max element. *)
Lemma raise_max_text x a table z_axis max_elem :
  find_first is_z_axis (children table) = Some z_axis ->
  find_first (has_tag "max") (children z_axis) = Some max_elem ->
  raise_max py_float (PStr x) a table = Raise ValueError.
Proof. intros Hz Hm. unfold raise_max. simpl. by rewrite Hz, Hm. Qed.

(** A row with a usable address that the index resolves. *)
Lemma process_row_resolved index row root log s i table :
  xdf_address row = PStr s -> s <> "" ->
  index !! normalized s = Some i -> children root !! i = Some table ->
  process_row py_float index row root log =
  match raise_max py_float (new_max row) (normalized s)
          (fst (rename_title (new_title row) (normalized s) table)) with
  | Ok (table2, log2) =>
      Done (put_table root i table2)
        (log ++ snd (rename_title (new_title row) (normalized s) table) ++ log2)
  | Raise e =>
      Raised e (put_table root i (fst (rename_title (new_title row) (normalized s) table)))
        (log ++ snd (rename_title (new_title row) (normalized s) table))
  end.
Proof.
  intros Ha Hs Hi Ht. unfold process_row, normalized in *.
  rewrite Ha. apply truthy_text in Hs. rewrite Hs. simpl.
  rewrite Hi, Ht. by destruct (rename_title _ _ table).
Qed.

Lemma put_table_lookup root i table :
  (i < length (children root))%nat ->
  children (put_table root i table) !! i = Some table.
Proof. intros H. simpl. by apply list_lookup_insert_eq. Qed.

Lemma put_table_other root i k table :
  i <> k -> children (put_table root i table) !! k = children root !! k.
Proof. intros H. simpl. by apply list_lookup_insert_ne. Qed.


(** Rows change texts only: the root keeps its number of children, so the
    positions the index holds stay valid through the run. *)
Lemma process_row_length index row root log :
  length (children (tree_of (process_row py_float index row root log)))
  = length (children root).
Proof.
  unfold process_row.
  destruct (negb (truthy (xdf_address row))); [done|].
  destruct (xdf_address row) as [|s| | | | |]; try done.
  destruct (index !! upper (strip s)) as [i|]; [|done].
  destruct (children root !! i) as [table|]; [|done].
  destruct (rename_title _ _ table) as [table1 log1].
  destruct (raise_max _ _ _ table1) as [[table2 log2]|e]; simpl;
    apply length_insert.
Qed.


End EditorFacts.

Section EditorStructure.

Context `{builtins : !Builtins}.

Variable py_float : string -> option spec_float.

Lemma rename_title_structure t a table :
  without_text (fst (rename_title t a table)) = without_text table.
Proof.
  unfold rename_title. destruct (truthy t); [|done].
  destruct (find_first _ _); [|done]. simpl.
  apply with_children_without_text, map_update_first, without_text_set_content.
Qed.

Lemma set_max_structure s z_axis : without_text (set_max s z_axis) = without_text z_axis.
Proof.
  unfold set_max.
  apply with_children_without_text, map_update_first, without_text_set_text.
Qed.

Lemma raise_max_structure v a table table' log :
  raise_max py_float v a table = Ok (table', log) ->
  without_text table' = without_text table.
Proof.
  unfold raise_max. destruct (is_not_None v); [|by intros [= <- _]].
  destruct (find_first is_z_axis _) as [z_axis|]; [|by intros [= <- _]].
  destruct (find_first (has_tag "max") _); [|by intros [= <- _]].
  destruct (format_2f v); [|done]. intros [= <- _].
  apply with_children_without_text, map_update_first, set_max_structure.
Qed.

Lemma put_table_structure root i table table' :
  children root !! i = Some table ->
  without_text table' = without_text table ->
  without_text (put_table root i table') = without_text root.
Proof.
  intros Hi Ht. unfold put_table.
  apply with_children_without_text. by apply (map_insert_same _ _ _ table).
Qed.

Lemma process_row_structure index row root log :
  without_text (tree_of (process_row py_float index row root log)) = without_text root.
Proof.
  unfold process_row.
  destruct (negb (truthy (xdf_address row))); [done|].
  destruct (xdf_address row) as [|s| | | | |]; try done.
  destruct (index !! upper (strip s)) as [i|]; [|done].
  destruct (children root !! i) as [table|] eqn:Hi; [|done].
  pose proof (rename_title_structure (new_title row) (upper (strip s)) table) as H1.
  destruct (rename_title _ _ table) as [table1 log1]. simpl in H1.
  destruct (raise_max _ _ _ table1) as [[table2 log2]|e] eqn:H2; simpl.
  - apply (put_table_structure _ _ table); [done|].
    rewrite <- H1. by eapply raise_max_structure.
  - by apply (put_table_structure _ _ table).
Qed.

Lemma process_rows_structure index rows : forall root log,
  without_text (tree_of (process_rows py_float index rows root log)) = without_text root.
Proof.
  induction rows as [|row rows IH]; intros root log; [done|]. simpl.
  pose proof (process_row_structure index row root log) as Hrow.
  destruct (process_row py_float index row root log) as [root' log'|e root' log'];
    [|done].
  by rewrite IH.
Qed.

(** The first loop reads tags and attributes only. *)
Lemma table_address_without_text table :
  table_address (without_text table) = table_address table.
Proof.
  unfold table_address. rewrite children_without_text.
  rewrite (find_first_without_text _ _ is_z_axis_without_text).
  destruct (find_first is_z_axis (children table)) as [z_axis|]; [|done]. simpl.
  rewrite children_without_text.
  rewrite (find_first_without_text _ _ (has_tag_without_text "EMBEDDEDDATA")).
  destruct (find_first _ (children z_axis)) as [embed|]; [|done]. simpl.
  by rewrite get_without_text.
Qed.

Lemma filed_under_without_text e : filed_under (without_text e) = filed_under e.
Proof.
  unfold filed_under. by rewrite has_tag_without_text, table_address_without_text.
Qed.

Lemma index_tables_without_text l : forall i acc,
  index_tables i (map without_text l) acc = index_tables i l acc.
Proof.
  induction l as [|x l IH]; intros i acc; [done|].
  change (map without_text (x :: l)) with (without_text x :: map without_text l).
  by rewrite !index_tables_step, filed_under_without_text, IH.
Qed.

Lemma tables_by_addr_without_text root :
  tables_by_addr (without_text root) = tables_by_addr root.
Proof.
  unfold tables_by_addr. rewrite children_without_text.
  apply index_tables_without_text.
Qed.

End EditorStructure.

Section RunFacts.

Context `{builtins : !Builtins}.

Local Open Scope list_scope.

Variable py_float : string -> option spec_float.

Lemma after_after a b o : after a (after b o) = after (a ++ b) o.
Proof. destruct o; simpl; by rewrite app_assoc. Qed.

Lemma tree_of_after log o : tree_of (after log o) = tree_of o.
Proof. by destruct o. Qed.

Lemma log_of_after log o : log_of (after log o) = (log ++ log_of o)%list.
Proof. by destruct o. Qed.

Lemma process_row_after index row root log :
  process_row py_float index row root log
  = after log (process_row py_float index row root []).
Proof.
  unfold process_row.
  destruct (negb (truthy (xdf_address row))); [by simpl; rewrite app_nil_r|].
  destruct (xdf_address row) as [|s| | | | |]; try (by simpl; rewrite app_nil_r).
  destruct (index !! upper (strip s)) as [i|]; [|done].
  destruct (children root !! i) as [table|]; [|by simpl; rewrite app_nil_r].
  destruct (rename_title _ _ table) as [table1 log1].
  by destruct (raise_max _ _ _ table1) as [[table2 log2]|e].
Qed.

Lemma process_rows_after index rows : forall root log,
  process_rows py_float index rows root log
  = after log (process_rows py_float index rows root []).
Proof.
  induction rows as [|row rows IH]; intros root log; [by simpl; rewrite app_nil_r|].
  simpl. rewrite process_row_after.
  destruct (process_row py_float index row root []) as [root' log'|e root' log']; simpl.
  - rewrite (IH root' (log ++ log')), (IH root' log'). by rewrite after_after.
  - done.
Qed.

Lemma process_rows_app index rows1 rows2 : forall root log,
  process_rows py_float index (rows1 ++ rows2) root log
  = match process_rows py_float index rows1 root log with
    | Done root1 log1 => process_rows py_float index rows2 root1 log1
    | Raised e root1 log1 => Raised e root1 log1
    end.
Proof.
  induction rows1 as [|row rows1 IH]; intros root log; [done|]. simpl.
  destruct (process_row py_float index row root log); [apply IH|done].
Qed.

Lemma same_structure_children root root' :
  without_text root' = without_text root ->
  map without_text (children root') = map without_text (children root).
Proof. rewrite !without_text_eq. by intros [= _ _ _ H]. Qed.

Lemma same_structure_lookup root root' i table :
  without_text root' = without_text root ->
  children root !! i = Some table ->
  exists table', children root' !! i = Some table'
                 /\ without_text table' = without_text table.
Proof.
  intros H Hi. apply same_structure_children in H.
  assert (Hl : map without_text (children root') !! i
               = map without_text (children root) !! i) by by rewrite H.
  rewrite !lookup_map, Hi in Hl.
  destruct (children root' !! i) as [table'|]; [|done].
  exists table'. split; [done|]. by injection Hl.
Qed.

Lemma put_table_same root i table :
  children root !! i = Some table -> put_table root i table = root.
Proof.
  intros Hi. unfold put_table. by rewrite list_insert_id, with_children_id.
Qed.

(** A row that prints nothing has changed nothing. *)
Lemma process_row_quiet index row root :
  log_of (process_row py_float index row root []) = [] ->
  tree_of (process_row py_float index row root []) = root.
Proof.
  unfold process_row.
  destruct (negb (truthy (xdf_address row))); [done|].
  destruct (xdf_address row) as [|s| | | | |]; try done.
  destruct (index !! upper (strip s)) as [i|]; [|done].
  destruct (children root !! i) as [table|] eqn:Hi; [|done].
  unfold rename_title, raise_max.
  destruct (truthy (new_title row));
    [destruct (find_first (has_tag "title") (children table))|]; simpl;
    destruct (is_not_None (new_max row)); simpl;
    repeat match goal with
           | |- context [match find_first ?p ?l with _ => _ end] =>
               destruct (find_first p l)
           | |- context [match format_2f ?v with _ => _ end] =>
               destruct (format_2f v)
           end; simpl; try done; intros _; by apply put_table_same.
Qed.

End RunFacts.

(** ** Keys of the index and normalized addresses *)

Section KeyFacts.

Context `{builtins : !Builtins}.

Lemma index_tables_latest a l : forall i acc k,
  index_tables i l acc !! a = Some k ->
  (acc !! a = Some k /\ forall j e, l !! j = Some e -> filed_under e <> Some a) \/
  exists j e,
    k = (i + j)%nat /\ l !! j = Some e /\ filed_under e = Some a /\
    forall j' e', (j < j')%nat -> l !! j' = Some e' -> filed_under e' <> Some a.
Proof.
  induction l as [|x l IH]; intros i acc k; [by left|].
  rewrite index_tables_step. intros H.
  apply IH in H as [[H Hno]|(j & e & -> & Hj & He & Hlast)].
  - destruct (decide (filed_under x = Some a)) as [Hx|Hx].
    + rewrite Hx, lookup_insert_eq in H. injection H as <-.
      right. exists 0%nat, x. repeat split; [lia|done|].
      intros [|j'] e' Hlt Hj'; [lia|]. by apply (Hno j').
    + left. split.
      * destruct (filed_under x) as [b|]; [|done].
        rewrite lookup_insert_ne in H; [done|congruence].
      * intros [|j] e Hj; simpl in Hj; [congruence|by apply (Hno j)].
  - right. exists (S j), e. repeat split; [lia|done|done|].
    intros [|j'] e' Hlt Hj'; [lia|]. apply (Hlast j'); [lia|done].
Qed.

Section WithUpperLaws.

Context `{upper_laws : !UpperLaws}.

(** The index never files a table under the empty address, and its keys are
    uppercase. *)
Lemma filed_under_nonempty e a : filed_under e = Some a -> a <> "".
Proof.
  unfold filed_under, table_address. intros H Ha. subst a.
  repeat match type of H with
         | context [match ?x with _ => _ end] => destruct x eqn:?; try discriminate
         end.
  injection H as H. apply upper_empty in H. subst.
  by rewrite String.eqb_refl in *.
Qed.

Lemma filed_under_upper e a : filed_under e = Some a -> upper a = a.
Proof.
  unfold filed_under, table_address. intros H.
  repeat match type of H with
         | context [match ?x with _ => _ end] => destruct x; try discriminate
         end.
  injection H as <-. apply upper_twice.
Qed.

Lemma index_never_empty_key root : tables_by_addr root !! "" = None.
Proof.
  destruct (tables_by_addr root !! "") as [i|] eqn:H; [|done].
  apply tables_by_addr_sound in H. unfold address_at in H.
  destruct (children root !! i) as [e|]; [|done].
  by apply filed_under_nonempty in H.
Qed.

End WithUpperLaws.

End KeyFacts.

(** ** Further properties of the spreadsheet-driven editor *)

Section EditorProperties.

Context `{builtins : !Builtins}.

Local Open Scope list_scope.

Variable py_float : string -> option spec_float.

Lemma raise_max_skipped v a table :
  max_text table = None -> raise_max py_float v a table = Ok (table, []).
Proof.
  unfold max_text, raise_max. intros H. destruct (is_not_None v); [|done].
  destruct (find_first is_z_axis (children table)) as [z_axis|]; [|done].
  by destruct (find_first (has_tag "max") (children z_axis)).
Qed.

Lemma raise_max_raised v a table e :
  raise_max py_float v a table = Raise e <->
  max_text table <> None /\ is_not_None v = true /\ format_2f v = Raise e.
Proof.
  unfold max_text, raise_max. destruct (is_not_None v); [|by split; [|intros (_ & ? & _)]].
  destruct (find_first is_z_axis (children table)) as [z_axis|];
    [|by split; [|intros (? & _)]].
  destruct (find_first (has_tag "max") (children z_axis)); simpl;
    [|by split; [|intros (? & _)]].
  destruct (format_2f v); split; try done.
  - by intros (_ & _ & ?).
  - by intros [= ->].
  - by intros (_ & _ & [= ->]).
Qed.

(** The two ways in which a row ends the run. *)
Lemma process_row_raised index row root log e :
  (exists root' log', process_row py_float index row root log = Raised e root' log') <->
  (e = AttributeError /\ truthy (xdf_address row) = true
   /\ forall s, xdf_address row <> PStr s) \/
  (exists s i table,
     xdf_address row = PStr s /\ s <> "" /\ index !! normalized s = Some i /\
     children root !! i = Some table /\ max_text table <> None /\
     is_not_None (new_max row) = true /\ format_2f (new_max row) = Raise e).
Proof.
  split.
  - intros (root' & log' & H). unfold process_row in H.
    destruct (truthy (xdf_address row)) eqn:Ht; simpl in H; [|done].
    destruct (xdf_address row) as [|s| | | | |] eqn:Ha;
      try (injection H as <- _ _; left; by repeat split).
    right. apply truthy_text in Ht.
    destruct (index !! upper (strip s)) as [i|] eqn:Hi; [|done].
    destruct (children root !! i) as [table|] eqn:Hc; [|done].
    pose proof (rename_title_max_text (new_title row) (upper (strip s)) table) as Hm.
    destruct (rename_title _ _ table) as [table1 log1]. simpl in Hm.
    destruct (raise_max _ _ _ table1) as [[table2 log2]|e'] eqn:Hr; [done|].
    injection H as -> _ _. apply raise_max_raised in Hr as (? & ? & ?).
    exists s, i, table. rewrite <- Hm. by repeat split.
  - intros [(-> & Ht & Hs)|(s & i & table & Ha & Hs & Hi & Hc & Hm & Hn & Hf)].
    + unfold process_row. rewrite Ht. simpl.
      destruct (xdf_address row) as [|s| | | | |]; eauto. by destruct (Hs s).
    + rewrite (process_row_resolved py_float index row root log s i table Ha Hs Hi Hc).
      rewrite <- (rename_title_max_text (new_title row) (normalized s) table) in Hm.
      assert (Hr : raise_max py_float (new_max row) (normalized s)
                     (fst (rename_title (new_title row) (normalized s) table)) = Raise e)
        by by apply raise_max_raised.
      rewrite Hr. eauto.
Qed.

Lemma safe_row_done index row root log :
  safe_row row = true ->
  exists root' log', process_row py_float index row root log = Done root' log'.
Proof.
  intros Hsafe.
  destruct (process_row py_float index row root log) as [root' log'|e root' log'] eqn:H;
    [eauto|].
  assert (Hex : exists root' log',
             process_row py_float index row root log = Raised e root' log') by eauto.
  apply process_row_raised in Hex. unfold safe_row in Hsafe.
  apply andb_prop in Hsafe as [[Haddr Hmax]%andb_prop Htitle].
  destruct Hex as [(_ & Ht & Hs)|(s & i & table & _ & _ & _ & _ & _ & Hn & Hf)].
  - destruct (xdf_address row) as [|s| | | | |]; try by rewrite Ht in Haddr.
    by destruct (Hs s).
  - rewrite Hf in Hmax. by destruct (new_max row).
Qed.

Lemma unresolved_row_done index row root log :
  unresolved index row ->
  process_row py_float index row root log = Done root (log ++ warning_of row).
Proof.
  unfold unresolved, process_row, warning_of, normalized.
  destruct (xdf_address row) as [|s|z|x|b|d|t].
  - intros _. simpl. by rewrite app_nil_r.
  - intros Hi. simpl. destruct (String.eqb s ""); simpl; [by rewrite app_nil_r|].
    by rewrite Hi.
  - intros ->. simpl. by rewrite app_nil_r.
  - intros ->. simpl. by rewrite app_nil_r.
  - intros ->. simpl. by rewrite app_nil_r.
  - done.
  - intros ->. simpl. by rewrite app_nil_r.
Qed.

End EditorProperties.

Section EditorExtras.

Context `{builtins : !Builtins}.

Local Open Scope list_scope.

Variable py_float : string -> option spec_float.

Lemma index_after_rows index rows root log :
  tables_by_addr (tree_of (process_rows py_float index rows root log))
  = tables_by_addr root.
Proof.
  rewrite <- tables_by_addr_without_text, process_rows_structure.
  apply tables_by_addr_without_text.
Qed.

Lemma process_row_same_key index r1 r2 root log s1 s2 :
  xdf_address r1 = PStr s1 -> xdf_address r2 = PStr s2 ->
  s1 <> "" -> s2 <> "" -> normalized s1 = normalized s2 -> same_edit r1 r2 ->
  process_row py_float index r2 root log = process_row py_float index r1 root log.
Proof.
  intros H1 H2 Hs1 Hs2 Hn (Hp & Hm & Ht). unfold process_row, normalized in *.
  apply truthy_text in Hs1, Hs2. by rewrite H1, H2, Hs1, Hs2, Hn, Hp, Hm, Ht.
Qed.

Lemma raise_max_title_text v a table table' log :
  raise_max py_float v a table = Ok (table', log) ->
  title_text table' = title_text table.
Proof.
  unfold raise_max. destruct (is_not_None v); [|by intros [= <- _]].
  destruct (find_first is_z_axis _) as [z_axis|]; [|by intros [= <- _]].
  destruct (find_first (has_tag "max") _); [|by intros [= <- _]].
  destruct (format_2f v); [|done]. intros [= <- _]. apply set_max_title_text.
Qed.

Lemma title_text_same_structure table table' :
  without_text table' = without_text table ->
  title_text table <> None -> title_text table' <> None.
Proof.
  intros H Ht. apply same_structure_children in H.
  pose proof (find_first_same_structure (has_tag "title") _ _
                (has_tag_without_text "title") H) as Hf.
  unfold title_text in *.
  destruct (find_first (has_tag "title") (children table)); [|done].
  by destruct (find_first (has_tag "title") (children table')).
Qed.

Lemma process_rows_unresolved index rows : forall root log,
  Forall (unresolved index) rows ->
  process_rows py_float index rows root log
  = Done root (log ++ flat_map warning_of rows).
Proof.
  induction rows as [|row rows IH]; intros root log H; simpl.
  - by rewrite app_nil_r.
  - inversion H as [|? ? Hrow Hrows]; subst.
    rewrite (unresolved_row_done py_float index row root log Hrow), IH by done.
    by rewrite <- app_assoc.
Qed.

Lemma process_rows_quiet index rows : forall root,
  log_of (process_rows py_float index rows root []) = [] ->
  tree_of (process_rows py_float index rows root []) = root.
Proof.
  induction rows as [|row rows IH]; intros root; [done|]. simpl.
  pose proof (process_row_quiet py_float index row root) as Hrow.
  destruct (process_row py_float index row root []) as [root1 log1|e root1 log1];
    simpl in *; [|done].
  rewrite process_rows_after, log_of_after, tree_of_after.
  intros [-> Hrest]%app_eq_nil. rewrite (IH root1 Hrest). by apply Hrow.
Qed.

End EditorExtras.

(** ** Where a row's mutations land, and what stays writable *)

Section LandingFacts.

Local Open Scope list_scope.

Context `{builtins : !Builtins}.
Variable py_float : string -> option spec_float.

Lemma title_found table : title_text table <> None ->
  exists title_elem, find_first (has_tag "title") (children table) = Some title_elem.
Proof.
  unfold title_text. destruct (find_first _ _) as [e|]; [eauto|done].
Qed.



Lemma rename_title_set t a table s :
  t = PStr s -> s <> "" -> title_text table <> None ->
  title_text (fst (rename_title t a table)) = Some (Some s).
Proof.
  intros -> Hs Ht. destruct (title_found table Ht) as [title_elem Hf].
  unfold rename_title, title_text. simpl truthy.
  apply String.eqb_neq in Hs. rewrite Hs, Hf. simpl.
  rewrite (find_update_same _ (set_content (PStr s)) _ _ Hf); [done|].
  rewrite has_tag_set_content. by apply find_first_holds in Hf.
Qed.

(** A row with a title lands it on the table its address resolves to. *)
Lemma row_sets_title index row root log s i table t :
  xdf_address row = PStr s -> s <> "" ->
  index !! normalized s = Some i ->
  children root !! i = Some table ->
  title_text table <> None ->
  new_title row = PStr t -> t <> "" ->
  exists table',
    children (tree_of (process_row py_float index row root log)) !! i = Some table' /\
    title_text table' = Some (Some t).
Proof.
  intros Ha Hs Hi Hc Htitle Ht Hne.
  rewrite (process_row_resolved py_float index row root log s i table Ha Hs Hi Hc).
  assert (Hlt : (i < length (children root))%nat) by by eapply lookup_lt_Some.
  pose proof (rename_title_set (new_title row) (normalized s) table t Ht Hne Htitle)
    as Hrename.
  destruct (raise_max _ _ _ _) as [[table2 log2]|e] eqn:Hmax; simpl.
  - exists table2. split; [by apply list_lookup_insert_eq|].
    by rewrite (raise_max_title_text py_float _ _ _ _ _ Hmax).
  - eexists. split; [by apply list_lookup_insert_eq|done].
Qed.


(** What the serializer accepts stays acceptable when a row writes text. *)
Lemma serializable_eq e :
  serializable e = writable (content e) && forallb serializable (children e).
Proof. by destruct e. Qed.

Lemma forallb_update_first (q : Element -> bool) p f l :
  (forall e, q e = true -> q (f e) = true) ->
  forallb q l = true -> forallb q (update_first p f l) = true.
Proof.
  intros Hf. induction l as [|x l IH]; simpl; [done|].
  intros [Hx Hl]%andb_prop. destruct (p x); simpl.
  - by rewrite (Hf x Hx), Hl.
  - by rewrite Hx, IH.
Qed.

Lemma forallb_insert (q : Element -> bool) l i x :
  q x = true -> forallb q l = true -> forallb q (<[i := x]> l) = true.
Proof.
  intros Hx. revert i. induction l as [|y l IH]; intros [|i]; simpl; try done.
  - intros [_ Hl]%andb_prop. by rewrite Hx, Hl.
  - intros [Hy Hl]%andb_prop. by rewrite Hy, IH.
Qed.

Lemma serializable_set_content v e :
  writable v = true -> serializable e = true -> serializable (set_content v e) = true.
Proof.
  rewrite !serializable_eq. simpl. intros -> [_ ->]%andb_prop. done.
Qed.

Lemma serializable_with_children e l :
  serializable e = true -> forallb serializable l = true ->
  serializable (with_children e l) = true.
Proof.
  rewrite !serializable_eq. simpl. intros [-> _]%andb_prop ->. done.
Qed.

Lemma serializable_children e :
  serializable e = true -> forallb serializable (children e) = true.
Proof. rewrite serializable_eq. by intros [_ ?]%andb_prop. Qed.

Lemma rename_title_serializable t a table :
  writable t = true -> serializable table = true ->
  serializable (fst (rename_title t a table)) = true.
Proof.
  intros Ht Hs. unfold rename_title. destruct (truthy t); [|done].
  destruct (find_first _ _); [|done]. simpl.
  apply serializable_with_children; [done|].
  apply forallb_update_first; [|by apply serializable_children].
  intros x. by apply serializable_set_content.
Qed.

Lemma set_max_serializable s z_axis :
  serializable z_axis = true -> serializable (set_max s z_axis) = true.
Proof.
  intros Hs. unfold set_max. apply serializable_with_children; [done|].
  apply forallb_update_first; [|by apply serializable_children].
  intros x. by apply serializable_set_content.
Qed.

Lemma raise_max_serializable v a table table' log :
  raise_max py_float v a table = Ok (table', log) ->
  serializable table = true -> serializable table' = true.
Proof.
  unfold raise_max. destruct (is_not_None v); [|by intros [= <- _]].
  destruct (find_first is_z_axis _) as [z_axis|]; [|by intros [= <- _]].
  destruct (find_first (has_tag "max") _); [|by intros [= <- _]].
  destruct (format_2f v); [|done]. intros [= <- _] Hs.
  apply serializable_with_children; [done|].
  apply forallb_update_first; [|by apply serializable_children].
  intros x. apply set_max_serializable.
Qed.

Lemma put_table_serializable root i table :
  serializable root = true -> serializable table = true ->
  serializable (put_table root i table) = true.
Proof.
  intros Hr Ht. unfold put_table. apply serializable_with_children; [done|].
  apply forallb_insert; [done|by apply serializable_children].
Qed.

Lemma lookup_serializable root i table :
  serializable root = true -> children root !! i = Some table ->
  serializable table = true.
Proof.
  intros Hr Hi. apply serializable_children in Hr.
  rewrite forallb_forall in Hr. apply Hr.
  apply list_elem_of_In, list_elem_of_lookup. eauto.
Qed.

Lemma process_row_serializable index row root log root' log' :
  writable (new_title row) = true -> serializable root = true ->
  process_row py_float index row root log = Done root' log' ->
  serializable root' = true.
Proof.
  intros Ht Hs. unfold process_row.
  destruct (negb (truthy (xdf_address row))); [by intros [= <- _]|].
  destruct (xdf_address row) as [|s| | | | |]; try done.
  destruct (index !! upper (strip s)) as [i|]; [|by intros [= <- _]].
  destruct (children root !! i) as [table|] eqn:Hi; [|by intros [= <- _]].
  pose proof (rename_title_serializable (new_title row) (upper (strip s)) table Ht
                (lookup_serializable _ _ _ Hs Hi)) as H1.
  destruct (rename_title _ _ table) as [table1 log1]. simpl in H1.
  destruct (raise_max _ _ _ table1) as [[table2 log2]|e] eqn:H2; [|done].
  intros [= <- _]. apply put_table_serializable; [done|].
  by eapply raise_max_serializable.
Qed.

Lemma process_rows_safe index rows : forall root log,
  forallb safe_row rows = true -> serializable root = true ->
  exists root' log',
    process_rows py_float index rows root log = Done root' log'
    /\ serializable root' = true.
Proof.
  induction rows as [|row rows IH]; intros root log H Hs; simpl; [eauto|].
  simpl in H. apply andb_prop in H as [Hrow Hrows].
  destruct (safe_row_done py_float index row root log Hrow) as (root1 & log1 & H1).
  rewrite H1. apply IH; [done|]. unfold safe_row in Hrow.
  apply andb_prop in Hrow as [_ Ht].
  by apply (process_row_serializable index row root log root1 log1).
Qed.

End LandingFacts.

(** ** Normalizing ASCII addresses *)

Section AsciiAddresses.

Context `{builtins : !Builtins} `{ascii_methods : !AsciiLaws}.

Lemma ascii_text_lstrip s : ascii_text s = true -> ascii_text (lstrip s) = true.
Proof.
  induction s as [|c s IH]; simpl; [done|].
  intros [Hc Hs]%andb_prop. destruct (is_space c); [auto|]. simpl. by rewrite Hc, Hs.
Qed.

Lemma ascii_text_rstrip s : ascii_text s = true -> ascii_text (rstrip s) = true.
Proof.
  induction s as [|c s IH]; simpl; [done|].
  intros [Hc Hs]%andb_prop. specialize (IH Hs).
  destruct (rstrip s); simpl in *; [destruct (is_space c); simpl; by rewrite ?Hc|].
  by rewrite Hc, IH.
Qed.

Lemma normalized_ascii s :
  ascii_text s = true -> normalized s = ascii_upper (ascii_strip s).
Proof.
  intros Hs. unfold normalized. rewrite (strip_ascii s Hs).
  apply upper_ascii. by apply ascii_text_rstrip, ascii_text_lstrip.
Qed.

Lemma strip_of_empty : strip "" = "".
Proof. by rewrite strip_ascii. Qed.

Lemma upper_of_empty : upper "" = "".
Proof. by rewrite upper_ascii. Qed.

End AsciiAddresses.

(** ** The claims about the spreadsheet-driven editor *)

Section EditorClaims.

Local Open Scope list_scope.

Context `{builtins : !Builtins} `{ascii_methods : !AsciiLaws}.
Variable py_float : string -> option spec_float.

(** C1, amended.  A row whose address cell holds text that is not empty and
    whose trimmed, uppercased address is not in the index leaves the tree as it
    is and prints exactly one warning, which carries the normalized address and
    the parameter name.  A row whose address cell is empty or missing (any
    falsy value) is skipped by the guard [if not desired_addr: continue]: the
    tree is left as it is and nothing is printed. *)
Theorem unresolved_row_warns_or_skips index row root log :
  (truthy (xdf_address row) = false ->
   process_row py_float index row root log = Done root log) /\
  (forall s, xdf_address row = PStr s -> s <> "" -> index !! normalized s = None ->
   process_row py_float index row root log
   = Done root (log ++ [Warning (normalized s) (param_name row)])).
Proof.
  split.
  - intros H. unfold process_row. by rewrite H.
  - intros s Ha Hs Hi. unfold process_row, normalized in *.
    apply truthy_text in Hs. by rewrite Ha, Hs, Hi.
Qed.

(** C2, amended.  The index files a table under the [mmedaddress] of the first
    EMBEDDEDDATA of its first z axis, uppercased and not trimmed, and the last
    table with that key wins; the address of a row is trimmed and uppercased.
    So a row resolves to the table when its trimmed, uppercased address equals
    the uppercased attribute: the two may differ in letter case and in
    whitespace around the row's address. *)
Theorem index_key_is_upper_address root i table z_axis embed address :
  children root !! i = Some table ->
  has_tag "XDFTABLE" table = true ->
  find_first is_z_axis (children table) = Some z_axis ->
  find_first (has_tag "EMBEDDEDDATA") (children z_axis) = Some embed ->
  get embed "mmedaddress" = Some address ->
  address <> "" ->
  (forall j, (i < j)%nat -> address_at root j <> Some (upper address)) ->
  tables_by_addr root !! upper address = Some i /\
  (forall row key log,
     xdf_address row = PStr key -> key <> "" -> upper (strip key) = upper address ->
     tables_by_addr root !! normalized key = Some i /\
     process_row py_float (tables_by_addr root) row root log =
     match raise_max py_float (new_max row) (normalized key)
             (fst (rename_title (new_title row) (normalized key) table)) with
     | Ok (table2, log2) =>
         Done (put_table root i table2)
           (log ++ snd (rename_title (new_title row) (normalized key) table) ++ log2)
     | Raise e =>
         Raised e
           (put_table root i (fst (rename_title (new_title row) (normalized key) table)))
           (log ++ snd (rename_title (new_title row) (normalized key) table))
     end).
Proof.
  intros Hi Ht Hz He Ha Hne Hlast.
  assert (Hidx : tables_by_addr root !! upper address = Some i).
  { apply tables_by_addr_last; [|done].
    unfold address_at, filed_under, table_address. rewrite Hi, Ht, Hz, He, Ha.
    apply String.eqb_neq in Hne. by rewrite Hne. }
  split; [done|]. intros row key log Hk Hkne Heq.
  assert (Hres : tables_by_addr root !! normalized key = Some i).
  { unfold normalized. by rewrite Heq. }
  split; [done|]. by apply process_row_resolved.
Qed.

(** C3.  A table whose z axis holds the address "0x4076A" and a max, and that no
    later table shares the address with: the row with address "0x4076a" and
    bound 300 leaves "300.00" as the text of that max. *)
Theorem lowercase_address_sets_max root i table z_axis embed max_elem name title :
  children root !! i = Some table ->
  has_tag "XDFTABLE" table = true ->
  find_first is_z_axis (children table) = Some z_axis ->
  find_first (has_tag "EMBEDDEDDATA") (children z_axis) = Some embed ->
  get embed "mmedaddress" = Some "0x4076A" ->
  find_first (has_tag "max") (children z_axis) = Some max_elem ->
  (forall j, (i < j)%nat -> address_at root j <> Some "0X4076A") ->
  exists root' log table',
    update_xdf_with_spreadsheet py_float root
      [{| param_name := name; xdf_address := PStr "0x4076a";
          new_max := PInt 300; new_title := title |}] = Done root' log /\
    children root' !! i = Some table' /\
    max_text table' = Some (Some "300.00").
Proof.
  intros Hi Ht Hz He Ha Hm Hlast.
  assert (Hkey : normalized "0x4076a" = "0X4076A") by by rewrite normalized_ascii.
  assert (Hidx : tables_by_addr root !! "0X4076A" = Some i).
  { apply tables_by_addr_last; [|done].
    unfold address_at, filed_under, table_address. rewrite Hi, Ht, Hz, He, Ha.
    simpl. by rewrite upper_ascii. }
  unfold update_xdf_with_spreadsheet. simpl process_rows.
  rewrite (process_row_resolved py_float _ _ root [] "0x4076a" i table);
    [|done|done|by rewrite Hkey|done].
  simpl new_max. simpl new_title. rewrite Hkey.
  pose proof (rename_title_axis title "0X4076A" table) as Hz1. rewrite Hz in Hz1.
  rewrite (raise_max_written py_float _ _ _ z_axis max_elem "300.00" Hz1 Hm);
    [|by vm_compute].
  eexists _, _, _. split; [reflexivity|]. split.
  - apply put_table_lookup. by eapply lookup_lt_Some.
  - by apply (set_max_max_text _ _ z_axis max_elem).
Qed.

(** C4, amended.  A bound that is text makes the format [.2f] raise ValueError
    once the row has resolved to a table whose z axis has a max: the run ends
    there, after the row's title mutation, with the rows that follow
    unprocessed and nothing written. *)
Theorem text_bound_aborts index row rest root log s i table z_axis max_elem x :
  xdf_address row = PStr s -> s <> "" ->
  index !! normalized s = Some i ->
  children root !! i = Some table ->
  find_first is_z_axis (children table) = Some z_axis ->
  find_first (has_tag "max") (children z_axis) = Some max_elem ->
  new_max row = PStr x ->
  process_rows py_float index (row :: rest) root log
  = Raised ValueError
      (put_table root i (fst (rename_title (new_title row) (normalized s) table)))
      (log ++ snd (rename_title (new_title row) (normalized s) table)).
Proof.
  intros Ha Hs Hi Ht Hz Hm Hx. simpl.
  rewrite (process_row_resolved py_float index row root log s i table Ha Hs Hi Ht).
  pose proof (rename_title_axis (new_title row) (normalized s) table) as Hz1.
  rewrite Hz in Hz1.
  by rewrite Hx, (raise_max_text py_float x _ _ z_axis max_elem Hz1 Hm).
Qed.


(** C8.  A bound that [.2f] can format is written over a max whose old text
    [float] rejects: the failure shows only as the old value None in the line
    that is printed, the tree is the one any other [float] would have left, and
    the loop goes on with the next row. *)
Theorem unparsable_old_max_is_overwritten
    index row rest root log s i table z_axis max_elem shown :
  xdf_address row = PStr s -> s <> "" ->
  index !! normalized s = Some i ->
  children root !! i = Some table ->
  find_first is_z_axis (children table) = Some z_axis ->
  find_first (has_tag "max") (children z_axis) = Some max_elem ->
  old_max_of py_float (content max_elem) = None ->
  format_2f (new_max row) = Ok shown ->
  exists table',
    process_rows py_float index (row :: rest) root log
    = process_rows py_float index rest (put_table root i table')
        (log ++ snd (rename_title (new_title row) (normalized s) table)
             ++ [UpdatedMax None (new_max row) (normalized s)]) /\
    children (put_table root i table') !! i = Some table' /\
    max_text table' = Some (Some shown) /\
    (forall float', tree_of (process_row float' index row root log) = put_table root i table').
Proof.
  intros Ha Hs Hi Ht Hz Hm Hold Hf. simpl.
  rewrite (process_row_resolved py_float index row root log s i table Ha Hs Hi Ht).
  pose proof (rename_title_axis (new_title row) (normalized s) table) as Hz1.
  rewrite Hz in Hz1.
  rewrite (raise_max_written py_float _ _ _ z_axis max_elem shown Hz1 Hm Hf), Hold.
  eexists. split; [reflexivity|]. split; [|split].
  - apply put_table_lookup. by eapply lookup_lt_Some.
  - by apply (set_max_max_text _ _ z_axis max_elem).
  - intros float'.
    rewrite (process_row_resolved float' index row root log s i table Ha Hs Hi Ht).
    by rewrite (raise_max_written float' _ _ _ z_axis max_elem shown Hz1 Hm Hf).
Qed.

(** C10.  The bound is tested with [is not None] and the title with its truth
    value: on a resolved row the bound 0 is written as "0.00", and the title ""
    counts as absent, so the title keeps its text and no renaming is printed. *)
Theorem zero_bound_written_empty_title_skipped
    index row root log s i table z_axis max_elem :
  xdf_address row = PStr s -> s <> "" ->
  index !! normalized s = Some i ->
  children root !! i = Some table ->
  find_first is_z_axis (children table) = Some z_axis ->
  find_first (has_tag "max") (children z_axis) = Some max_elem ->
  new_max row = PInt 0 ->
  new_title row = PStr "" ->
  exists table',
    process_row py_float index row root log
    = Done (put_table root i table')
        (log ++ [UpdatedMax (old_max_of py_float (content max_elem)) (PInt 0) (normalized s)]) /\
    children (put_table root i table') !! i = Some table' /\
    max_text table' = Some (Some "0.00") /\
    title_text table' = title_text table.
Proof.
  intros Ha Hs Hi Ht Hz Hm Hmax Htitle.
  rewrite (process_row_resolved py_float index row root log s i table Ha Hs Hi Ht).
  rewrite Hmax, Htitle, rename_title_absent by done. simpl fst. simpl snd.
  rewrite (raise_max_written py_float _ _ _ z_axis max_elem "0.00" Hz Hm);
    [|by vm_compute].
  eexists. split; [reflexivity|]. split; [|split].
  - apply put_table_lookup. by eapply lookup_lt_Some.
  - by apply (set_max_max_text _ _ z_axis max_elem).
  - apply set_max_title_text.
Qed.

End EditorClaims.
(** ** Facts about the interactive renamer *)

Import Freedom.

Section RenamerFacts.

Context `{builtins : !Builtins}.

Lemma for_each_map p body l :
  fst (for_each p body l) = map (fun e => if p e then fst (body e) else e) l.
Proof.
  induction l as [|x l IH]; simpl; [done|].
  destruct (p x); destruct (for_each p body l); simpl in *;
    [destruct (body x)|]; simpl; by rewrite IH.
Qed.

Lemma rename_in_header_children rename_map h :
  children (fst (rename_in_header rename_map h))
  = map (fun c => if has_tag "CATEGORY" c then fst (rename_category rename_map c) else c)
      (children h).
Proof.
  unfold rename_in_header. rewrite <- for_each_map.
  by destruct (for_each _ _ (children h)).
Qed.

Lemma rename_in_header_tag rename_map h t :
  has_tag t (fst (rename_in_header rename_map h)) = has_tag t h.
Proof. unfold rename_in_header. by destruct (for_each _ _ (children h)). Qed.

Lemma rename_in_header_eq rename_map h :
  fst (rename_in_header rename_map h)
  = with_children h (children (fst (rename_in_header rename_map h))).
Proof. unfold rename_in_header. by destruct (for_each _ _ (children h)). Qed.

Lemma renamed_children rename_map root :
  children (renamed rename_map root)
  = update_first (has_tag "XDFHEADER") (fun h => fst (rename_in_header rename_map h))
      (children root).
Proof.
  unfold renamed, rename_categories.
  destruct (find_first (has_tag "XDFHEADER") (children root)) eqn:Hh; simpl; [done|].
  by rewrite find_update_none.
Qed.

Lemma renamed_eq rename_map root :
  renamed rename_map root = with_children root (children (renamed rename_map root)).
Proof.
  rewrite renamed_children. unfold renamed, rename_categories.
  destruct (find_first (has_tag "XDFHEADER") (children root)) eqn:Hh; simpl; [done|].
  by rewrite find_update_none, with_children_id.
Qed.

(** What the loop body leaves of one category. *)
Lemma rename_category_cases rename_map cat :
  match rename_map !! default "" (get cat "name") with
  | Some new_name =>
      fst (rename_category rename_map cat) = set "name" new_name cat
  | None => fst (rename_category rename_map cat) = cat
  end.
Proof. unfold rename_category. by destruct (rename_map !! _). Qed.

Lemma rename_category_twice rename_map cat :
  no_value_is_key rename_map ->
  fst (rename_category rename_map (fst (rename_category rename_map cat)))
  = fst (rename_category rename_map cat).
Proof.
  intros Hm. pose proof (rename_category_cases rename_map cat) as Hc.
  destruct (rename_map !! default "" (get cat "name")) as [v|] eqn:Hv; rewrite Hc.
  - unfold rename_category. rewrite get_set. simpl. by rewrite (Hm _ _ Hv).
  - unfold rename_category. by rewrite Hv.
Qed.

Lemma rename_category_tag rename_map cat t :
  has_tag t (fst (rename_category rename_map cat)) = has_tag t cat.
Proof. unfold rename_category. by destruct (rename_map !! _). Qed.

Lemma rename_in_header_twice rename_map h :
  no_value_is_key rename_map ->
  fst (rename_in_header rename_map (fst (rename_in_header rename_map h)))
  = fst (rename_in_header rename_map h).
Proof.
  intros Hm. rewrite (rename_in_header_eq _ (fst _)), (rename_in_header_eq _ h).
  rewrite !rename_in_header_children. simpl. f_equal.
  rewrite map_map. apply map_ext. intros c.
  destruct (has_tag "CATEGORY" c) eqn:Hc.
  - by rewrite rename_category_tag, Hc, rename_category_twice.
  - by rewrite Hc.
Qed.

Lemma update_first_twice p f l :
  (forall e, p e = true -> p (f e) = true) ->
  update_first p f (update_first p f l) = update_first p (fun e => f (f e)) l.
Proof.
  intros Hf. induction l as [|x l IH]; simpl; [done|].
  destruct (p x) eqn:Hx; simpl.
  - by rewrite (Hf _ Hx).
  - by rewrite Hx, IH.
Qed.

Lemma update_first_ext p f g l :
  (forall e, f e = g e) -> update_first p f l = update_first p g l.
Proof.
  intros Hfg. induction l as [|x l IH]; simpl; [done|].
  destruct (p x); by rewrite ?Hfg, ?IH.
Qed.

(** Renaming twice is renaming once when no replacement is a key. *)
Lemma renamed_twice rename_map root :
  no_value_is_key rename_map ->
  renamed rename_map (renamed rename_map root) = renamed rename_map root.
Proof.
  intros Hm. rewrite (renamed_eq _ (renamed _ _)), (renamed_eq _ root) at 1.
  rewrite (renamed_children _ (renamed _ _)), renamed_children. simpl.
  rewrite (renamed_eq _ root), renamed_children. simpl. f_equal.
  rewrite update_first_twice.
  - apply update_first_ext. intros e. by apply rename_in_header_twice.
  - intros e He. by rewrite rename_in_header_tag.
Qed.

Lemma retitle_table_tag table t :
  has_tag t (fst (retitle_table table)) = has_tag t table.
Proof.
  unfold retitle_table.
  destruct (find_first _ _) as [e|]; [|done].
  destruct (text e) as [o|]; [|done].
  by destruct (negb _ && _).
Qed.

Lemma retitle_tables_children root :
  children (fst (retitle_tables root))
  = map (fun e => if has_tag "XDFTABLE" e then fst (retitle_table e) else e)
      (children root).
Proof.
  unfold retitle_tables. rewrite <- for_each_map.
  by destruct (for_each _ _ (children root)).
Qed.

Lemma run_tree root rename_map :
  fst (update_xdf_for_high_performance root rename_map)
  = fst (retitle_tables (renamed rename_map root)).
Proof.
  unfold update_xdf_for_high_performance, renamed.
  destruct (rename_categories rename_map root) as [root1 log1]. simpl.
  by destruct (retitle_tables root1).
Qed.

Lemma find_first_map p g l :
  (forall e, p (g e) = p e) -> (forall e, p e = true -> g e = e) ->
  find_first p (map g l) = find_first p l.
Proof.
  intros Hp Hg. induction l as [|x l IH]; simpl; [done|].
  rewrite Hp. destruct (p x) eqn:Hx; [by rewrite Hg|done].
Qed.

(** The title loop leaves the header alone. *)
Lemma retitle_tables_header root :
  find_first (has_tag "XDFHEADER") (children (fst (retitle_tables root)))
  = find_first (has_tag "XDFHEADER") (children root).
Proof.
  rewrite retitle_tables_children. apply find_first_map.
  - intros e. destruct (has_tag "XDFTABLE" e); [apply retitle_table_tag|done].
  - intros e He. by rewrite (has_tag_distinct "XDFHEADER" "XDFTABLE" e).
Qed.

Lemma ignition_test s :
  negb (String.eqb s "") && contains "Ignition" s = contains "Ignition" s.
Proof. destruct s; [done|]. reflexivity. Qed.

End RenamerFacts.

(** ** The claims about the interactive renamer *)

Section RenamerClaims.

Context `{builtins : !Builtins}.

(** C6, amended.  The step renames the CATEGORY children of the first XDFHEADER
    of the root: such a category whose name (the empty string when it has no
    name attribute) is a key of the map gets the mapped value as its name, and
    one whose name is no key stays as it is.  Every other node stays as it is,
    category elements outside that header included. *)
Theorem header_categories_renamed rename_map root xdf_header :
  find_first (has_tag "XDFHEADER") (children root) = Some xdf_header ->
  exists xdf_header',
    find_first (has_tag "XDFHEADER") (children (renamed rename_map root))
    = Some xdf_header' /\
    find_first (has_tag "XDFHEADER")
      (children (fst (update_xdf_for_high_performance root rename_map)))
    = Some xdf_header' /\
    (forall k cat,
       children xdf_header !! k = Some cat -> has_tag "CATEGORY" cat = true ->
       exists cat',
         children xdf_header' !! k = Some cat' /\
         match rename_map !! default "" (get cat "name") with
         | Some new_name => cat' = set "name" new_name cat /\ get cat' "name" = Some new_name
         | None => cat' = cat
         end) /\
    (forall k e,
       children xdf_header !! k = Some e -> has_tag "CATEGORY" e = false ->
       children xdf_header' !! k = Some e) /\
    (forall k e,
       children root !! k = Some e -> has_tag "XDFHEADER" e = false ->
       children (renamed rename_map root) !! k = Some e) /\
    xdf_header' = with_children xdf_header (children xdf_header') /\
    renamed rename_map root
    = with_children root
        (update_first (has_tag "XDFHEADER") (fun _ => xdf_header') (children root)).
Proof.
  intros Hh. exists (fst (rename_in_header rename_map xdf_header)).
  assert (Hfind : find_first (has_tag "XDFHEADER") (children (renamed rename_map root))
                  = Some (fst (rename_in_header rename_map xdf_header))).
  { rewrite renamed_children.
    apply (find_update_same _ (fun h => fst (rename_in_header rename_map h)) _ _ Hh).
    rewrite rename_in_header_tag. by apply find_first_holds in Hh. }
  split; [done|]. split.
  { by rewrite run_tree, retitle_tables_header. }
  split; [|split; [|split; [|split]]].
  - intros k cat Hk Hc. rewrite rename_in_header_children, lookup_map, Hk.
    simpl. rewrite Hc. eexists. split; [reflexivity|].
    pose proof (rename_category_cases rename_map cat) as Hcases.
    destruct (rename_map !! default "" (get cat "name")); [|done].
    split; [done|]. rewrite Hcases. apply get_set.
  - intros k e Hk He. rewrite rename_in_header_children, lookup_map, Hk.
    simpl. by rewrite He.
  - intros k e Hk He. rewrite renamed_children.
    by apply update_first_lookup_other.
  - apply rename_in_header_eq.
  - rewrite renamed_eq, renamed_children. f_equal.
    by apply (update_first_found _ (fun h => fst (rename_in_header rename_map h))).
Qed.

(** C7.  Whatever the rename map holds, a run puts "RACE HIGH PERF " in front of
    the title of every table of the root whose title text contains "Ignition",
    and leaves a table whose title does not contain it as it was. *)
Theorem ignition_titles_prefixed rename_map root k table title_elem :
  children root !! k = Some table ->
  has_tag "XDFTABLE" table = true ->
  find_first (has_tag "title") (children table) = Some title_elem ->
  exists table' title_elem',
    children (fst (update_xdf_for_high_performance root rename_map)) !! k = Some table' /\
    find_first (has_tag "title") (children table') = Some title_elem' /\
    match text title_elem with
    | Some old_title =>
        if contains "Ignition" old_title
        then text title_elem' = Some ("RACE HIGH PERF " ++ old_title)
        else table' = table
    | None => table' = table
    end.
Proof.
  intros Hk Ht Htitle.
  assert (Hk1 : children (renamed rename_map root) !! k = Some table).
  { rewrite renamed_children. apply update_first_lookup_other; [done|].
    by apply (has_tag_distinct "XDFTABLE" "XDFHEADER"). }
  rewrite run_tree, retitle_tables_children, lookup_map, Hk1. simpl. rewrite Ht.
  unfold retitle_table. rewrite Htitle.
  destruct (text title_elem) as [old_title|] eqn:Hold; [|by eauto].
  rewrite ignition_test.
  destruct (contains "Ignition" old_title); [|by eauto].
  exists (with_children table
            (update_first (has_tag "title")
               (set_text (Some ("RACE HIGH PERF " ++ old_title))) (children table))),
    (set_text (Some ("RACE HIGH PERF " ++ old_title)) title_elem).
  split; [reflexivity|]. split; [|reflexivity]. simpl.
  apply (find_update_same _ (set_text _) _ _ Htitle).
  rewrite has_tag_set_text. by apply find_first_holds in Htitle.
Qed.

(** C9, amended.  With a map none of whose replacement names is itself a key,
    running the category-rename step twice gives the tree that running it once
    gives.  The step is not idempotent only for a map in which a replacement
    is a key: with Fuel renamed to Ignition and Ignition to Spark, a category
    Fuel is Ignition after one run and Spark after two. *)
Theorem rename_idempotent_unless_chained :
  (forall rename_map root,
     no_value_is_key rename_map ->
     renamed rename_map (renamed rename_map root) = renamed rename_map root) /\
  (exists rename_map root,
     renamed rename_map (renamed rename_map root) <> renamed rename_map root).
Proof.
  split; [intros m root; apply renamed_twice|].
  exists (<["Fuel" := "Ignition"]> (<["Ignition" := "Spark"]> ∅)), Samples.doc.
  intros H. vm_compute in H. discriminate H.
Qed.

End RenamerClaims.

(** ** Normalized addresses under the laws of [upper] and [strip] *)

Section NormalizedFacts.

Context `{builtins : !Builtins}.
Context `{ascii_methods : !AsciiLaws} `{upper_laws : !UpperLaws}.
Context `{strip_laws : !StripLaws} `{strip_upper_laws : !StripUpperLaws}.

Lemma normalized_twice s : normalized (normalized s) = normalized s.
Proof.
  unfold normalized. by rewrite strip_upper, strip_twice, upper_twice.
Qed.

Lemma normalized_upper s : normalized (upper s) = normalized s.
Proof. unfold normalized. by rewrite strip_upper, upper_twice. Qed.

Lemma normalized_strip s : normalized (strip s) = normalized s.
Proof. unfold normalized. by rewrite strip_twice. Qed.

Lemma strip_nonempty s : normalized s <> "" -> s <> "" /\ strip s <> "".
Proof.
  unfold normalized. intros H. split; intros E; apply H.
  - subst s. by rewrite strip_of_empty, upper_of_empty.
  - rewrite E. apply upper_of_empty.
Qed.

End NormalizedFacts.

(** ** Loading the sheet *)

Section LoadFacts.

Local Open Scope list_scope.
Local Open Scope nat_scope.

Lemma load_rows_spec rows :
  match load_rows rows with
  | Ok data =>
      Forall (fun cells => 4 <= length cells) rows /\
      map cells_of data = map (take 4) (List.filter named rows)
  | Raise e =>
      e = IndexError /\ Exists (fun cells => length cells < 4) rows
  end.
Proof.
  induction rows as [|cells rows IH]; simpl; [by split|].
  destruct cells as [|a [|b [|c [|d cells]]]];
    try (split; [done|]; apply Exists_cons_hd; simpl; lia).
  destruct (load_rows rows) as [data|e].
  - destruct IH as [Hall Hmap].
    assert (Hlen : 4 <= length (a :: b :: c :: d :: cells)) by (simpl; lia).
    destruct (truthy a) eqn:Ha; simpl; rewrite Ha.
    + split; [by constructor|]. simpl. by rewrite Hmap.
    + split; [by constructor|done].
  - destruct IH as [-> Hex]. split; [done|]. by apply Exists_cons_tl.
Qed.

End LoadFacts.

(** ** Properties of the spreadsheet-driven editor beyond the claims *)

Section EditorTheorems.

Local Open Scope list_scope.

Context `{builtins : !Builtins}.
Context `{ascii_methods : !AsciiLaws} `{upper_laws : !UpperLaws}.
Context `{strip_laws : !StripLaws} `{strip_upper_laws : !StripUpperLaws}.
Variable py_float : string -> option spec_float.

(** X1.  The index holds an address exactly for the last child of the root
    that is a table carrying it: looking up what the first loop inserted gives
    the position of that table back, and nothing else is in the index. *)
Theorem index_lookup_iff root a i :
  tables_by_addr root !! a = Some i <->
  address_at root i = Some a /\ forall j, (i < j)%nat -> address_at root j <> Some a.
Proof.
  split; [|intros [Hi Hlast]; by apply tables_by_addr_last].
  unfold tables_by_addr, address_at. intros H.
  apply index_tables_latest in H as [[H _]|(j & e & -> & Hj & He & Hlast)].
  - by rewrite lookup_empty in H.
  - simpl. rewrite Hj. split; [done|]. intros j' Hlt.
    destruct (children root !! j') as [e'|] eqn:Hj'; [|done]. by apply (Hlast j').
Qed.

(** X2.  Every key of the index is a non-empty string that uppercasing leaves
    as it is, and every value is the position of an XDFTABLE child of the
    root. *)
Theorem index_keys_uppercase root a i :
  tables_by_addr root !! a = Some i ->
  a <> "" /\ upper a = a /\
  exists table, children root !! i = Some table /\ has_tag "XDFTABLE" table = true.
Proof.
  intros H. pose proof (tables_by_addr_in_range _ _ _ H) as Hrange.
  apply tables_by_addr_sound in H. unfold address_at in H.
  destruct (children root !! i) as [e|]; [|done].
  split; [by eapply filed_under_nonempty|]. split; [by eapply filed_under_upper|done].
Qed.

(** X3.  An address cell that holds whitespace only is not skipped like an
    empty one: it is looked up as the empty address, which no document has, so
    the row always gets the warning and changes nothing. *)
Theorem blank_address_warns root row log s :
  xdf_address row = PStr s -> s <> "" -> strip s = "" ->
  process_row py_float (tables_by_addr root) row root log
  = Done root (log ++ [Warning "" (param_name row)]).
Proof.
  intros Ha Hs Hstrip. unfold process_row. apply truthy_text in Hs.
  rewrite Ha, Hs, Hstrip. simpl. by rewrite upper_of_empty, index_never_empty_key.
Qed.

(** X4.  Letter case and surrounding whitespace of an address cell that is
    not blank do not matter: when the address of a row is text that
    normalizes to something other than the empty string, a row whose address
    is its uppercased, its trimmed or its normalized form is processed exactly
    as that row, lines printed included.  (A blank cell is different: trimmed,
    it is the empty cell, which is skipped without the warning.) *)
Theorem address_spelling_ignored index r1 r2 root log s :
  xdf_address r1 = PStr s -> normalized s <> "" -> same_edit r1 r2 ->
  xdf_address r2 = PStr (upper s) \/ xdf_address r2 = PStr (strip s)
  \/ xdf_address r2 = PStr (normalized s) ->
  process_row py_float index r2 root log = process_row py_float index r1 root log.
Proof.
  intros H1 Hn Hsame H2. destruct (strip_nonempty s Hn) as [Hs Hstrip].
  destruct H2 as [H2|[H2|H2]];
    apply (process_row_same_key py_float index r1 r2 root log s _ H1 H2 Hs);
    try done.
  - intros Hu. by apply upper_empty in Hu.
  - symmetry. apply normalized_upper.
  - symmetry. apply normalized_strip.
  - symmetry. apply normalized_twice.
Qed.

(** X5.  A run changes texts only: with the texts forgotten, the tree it leaves
    is the tree it was given, whether it ended normally or in an exception.  No
    element is added, removed, moved or retagged and no attribute is touched. *)
Theorem run_changes_texts_only root rows :
  without_text (tree_of (update_xdf_with_spreadsheet py_float root rows))
  = without_text root.
Proof. apply process_rows_structure. Qed.

(** X6.  The index built before the rows are processed stays the index of the
    tree through the whole run: building it again from the edited tree gives
    the same map. *)
Theorem index_survives_run root rows :
  tables_by_addr (tree_of (update_xdf_with_spreadsheet py_float root rows))
  = tables_by_addr root.
Proof. apply index_after_rows. Qed.

(** X7.  Running the rows in two batches, the second on the tree the first
    left, gives the tree and the lines of one run over all rows; a batch that
    ends in an exception ends the whole. *)
Theorem run_in_batches root rows1 rows2 :
  update_xdf_with_spreadsheet py_float root (rows1 ++ rows2)
  = match update_xdf_with_spreadsheet py_float root rows1 with
    | Done root1 log1 => after log1 (update_xdf_with_spreadsheet py_float root1 rows2)
    | Raised e root1 log1 => Raised e root1 log1
    end.
Proof.
  unfold update_xdf_with_spreadsheet. rewrite process_rows_app.
  pose proof (index_after_rows py_float (tables_by_addr root) rows1 root []) as Hidx.
  destruct (process_rows py_float (tables_by_addr root) rows1 root [])
    as [root1 log1|e root1 log1]; [|done].
  simpl in Hidx. rewrite Hidx. apply process_rows_after.
Qed.

(** X8.  On a document that can be written as it is, a run cannot raise on
    rows whose address cell is false or text, whose bound cell is None or
    something [.2f] formats, and whose title cell is false or text: it ends
    normally and [tree.write] writes the tree it leaves.  (A title cell that
    holds a number becomes the text of the title and makes [tree.write] raise
    TypeError; such a row is not among these.) *)
Theorem safe_rows_never_raise root rows :
  forallb safe_row rows = true ->
  serializable root = true ->
  exists root' log,
    update_xdf_with_spreadsheet py_float root rows = Done root' log /\
    write root' = Ok root'.
Proof.
  intros Hrows Hroot.
  destruct (process_rows_safe py_float (tables_by_addr root) rows root [] Hrows Hroot)
    as (root' & log & Hrun & Hs).
  exists root', log. split; [done|]. unfold write. by rewrite Hs.
Qed.

(** X9.  A row ends the run in exactly two ways: AttributeError when its
    address cell holds a number or boolean that is not falsy, and the error of
    the format when its address resolves to a table whose z axis has a max and
    the bound cell holds something [.2f] rejects. *)
Theorem row_raises_iff index row root log e :
  (exists root' log', process_row py_float index row root log = Raised e root' log') <->
  (e = AttributeError /\ truthy (xdf_address row) = true
   /\ forall s, xdf_address row <> PStr s) \/
  (exists s i table,
     xdf_address row = PStr s /\ s <> "" /\ index !! normalized s = Some i /\
     children root !! i = Some table /\ max_text table <> None /\
     is_not_None (new_max row) = true /\ format_2f (new_max row) = Raise e).
Proof. apply process_row_raised. Qed.

(** X10.  A run that prints nothing has changed nothing: the tree it leaves is
    the tree it was given. *)
Theorem quiet_run_changes_nothing root rows :
  log_of (update_xdf_with_spreadsheet py_float root rows) = [] ->
  tree_of (update_xdf_with_spreadsheet py_float root rows) = root.
Proof. apply process_rows_quiet. Qed.

(** X11.  When no row finds a table, the run ends normally with the tree as it
    was, and prints one warning for every row that has an address, in the
    order of the rows, and nothing else. *)
Theorem unresolved_rows_only_warn root rows :
  Forall (unresolved (tables_by_addr root)) rows ->
  update_xdf_with_spreadsheet py_float root rows
  = Done root (flat_map warning_of rows).
Proof.
  intros H. unfold update_xdf_with_spreadsheet.
  by rewrite process_rows_unresolved.
Qed.

(** X12.  The last row decides: after rows that ended normally, a row with a
    title for a table that has a title element leaves that title as the
    table's title in the tree, whatever the earlier rows wrote there and
    whatever its own bound cell holds (a bound that raises does so after the
    title was set). *)
Theorem last_title_wins root rows row root1 log1 s i table t :
  update_xdf_with_spreadsheet py_float root rows = Done root1 log1 ->
  xdf_address row = PStr s -> s <> "" ->
  tables_by_addr root !! normalized s = Some i ->
  children root !! i = Some table ->
  title_text table <> None ->
  new_title row = PStr t -> t <> "" ->
  exists table',
    children (tree_of (update_xdf_with_spreadsheet py_float root (rows ++ [row]))) !! i
    = Some table' /\
    title_text table' = Some (Some t).
Proof.
  intros Hrun Ha Hs Hi Hc Htitle Ht Hne. unfold update_xdf_with_spreadsheet in *.
  pose proof (process_rows_structure py_float (tables_by_addr root) rows root []) as Hst.
  rewrite process_rows_app, Hrun. rewrite Hrun in Hst. simpl in Hst. simpl.
  destruct (same_structure_lookup root root1 i table Hst Hc) as (table1 & Hc1 & Hst1).
  pose proof (title_text_same_structure table table1 Hst1 Htitle) as Htitle1.
  destruct (row_sets_title py_float _ row root1 log1 s i table1 t
              Ha Hs Hi Hc1 Htitle1 Ht Hne) as (table' & Hat & Htext).
  exists table'. split; [|done].
  by destruct (process_row py_float (tables_by_addr root) row root1 log1).
Qed.

(** X13.  A table without a title element: the title of the row is dropped
    without a line or an error, no title element is made, and the bound of the
    same row is still written. *)
Theorem missing_title_bound_applied
    index row root log s i table z_axis max_elem shown :
  xdf_address row = PStr s -> s <> "" ->
  index !! normalized s = Some i ->
  children root !! i = Some table ->
  find_first (has_tag "title") (children table) = None ->
  find_first is_z_axis (children table) = Some z_axis ->
  find_first (has_tag "max") (children z_axis) = Some max_elem ->
  format_2f (new_max row) = Ok shown ->
  exists table',
    process_row py_float index row root log
    = Done (put_table root i table')
        (log ++ [UpdatedMax (old_max_of py_float (content max_elem)) (new_max row)
                   (normalized s)]) /\
    max_text table' = Some (Some shown) /\
    title_text table' = None.
Proof.
  intros Ha Hs Hi Hc Hnone Hz Hm Hf.
  rewrite (process_row_resolved py_float index row root log s i table Ha Hs Hi Hc).
  assert (Hr : rename_title (new_title row) (normalized s) table = (table, [])).
  { unfold rename_title. rewrite Hnone. by destruct (truthy (new_title row)). }
  rewrite Hr. simpl fst. simpl snd.
  rewrite (raise_max_written py_float _ _ _ z_axis max_elem shown Hz Hm Hf).
  eexists. split; [reflexivity|]. split.
  - by apply (set_max_max_text _ _ z_axis max_elem).
  - rewrite set_max_title_text. unfold title_text. by rewrite Hnone.
Qed.

(** X14.  A table whose first z axis is missing or has no max element: the
    bound cell is never formatted, so the row ends normally whatever the cell
    holds, text included, and only the title mutation takes place. *)
Theorem missing_max_ignores_bound index row root log s i table :
  xdf_address row = PStr s -> s <> "" ->
  index !! normalized s = Some i ->
  children root !! i = Some table ->
  max_text table = None ->
  process_row py_float index row root log
  = Done (put_table root i (fst (rename_title (new_title row) (normalized s) table)))
      (log ++ snd (rename_title (new_title row) (normalized s) table)).
Proof.
  intros Ha Hs Hi Hc Hm.
  rewrite (process_row_resolved py_float index row root log s i table Ha Hs Hi Hc).
  rewrite raise_max_skipped by by rewrite rename_title_max_text.
  by rewrite app_nil_r.
Qed.

(** X15.  [load_spreadsheet_data] either raises IndexError, which it does
    exactly when a row below the header has fewer than four cells, or returns
    one entry for every row below the header whose name cell is true, in the
    order of the sheet, holding the first four cells of the row as they
    were. *)
Theorem load_keeps_named_rows sheet :
  match load_spreadsheet_data sheet with
  | Ok data =>
      Forall (fun cells => (4 <= length cells)%nat) (drop 1 sheet) /\
      map cells_of data = map (take 4) (List.filter named (drop 1 sheet))
  | Raise e =>
      e = IndexError /\ Exists (fun cells => (length cells < 4)%nat) (drop 1 sheet)
  end.
Proof. apply load_rows_spec. Qed.


End EditorTheorems.
(** ** Further facts about the interactive renamer *)

Section RenamerMoreFacts.

Local Open Scope list_scope.

Context `{builtins : !Builtins} `{ascii_methods : !AsciiLaws} `{strip_laws : !StripLaws}.

Lemma answer_nonempty typed fallback : fallback <> "" -> answer typed fallback <> "".
Proof.
  intros Hf. unfold answer. destruct (String.eqb (strip typed) "") eqn:H; [done|].
  by apply String.eqb_neq.
Qed.

Lemma answer_stripped typed fallback :
  strip fallback = fallback -> strip (answer typed fallback) = answer typed fallback.
Proof.
  intros Hf. unfold answer. destruct (String.eqb (strip typed) ""); [done|].
  apply strip_twice.
Qed.

Lemma answer_avoids typed fallback :
  strip typed ∉ menu_names -> fallback ∉ menu_names ->
  answer typed fallback ∉ menu_names.
Proof. intros Ht Hf. unfold answer. by destruct (String.eqb (strip typed) ""). Qed.

(** The map of the prompts, read key by key. *)
Lemma prompt_lookup boost fuel ign limits k v :
  prompt_user_for_menu_updates boost fuel ign limits !! k = Some v ->
  (k = "Limits" /\ v = answer limits "RACE: Safety Limits") \/
  (k = "Ignition" /\ v = answer ign "RACE: Spark & Timing") \/
  (k = "Fuel" /\ v = answer fuel "RACE: Fuel & AFR") \/
  (k = "Boost Control" /\ v = answer boost "RACE: Maximum Boost Control").
Proof.
  unfold prompt_user_for_menu_updates. rewrite !lookup_insert, lookup_empty.
  repeat case_decide; intros [= <-]; subst; tauto.
Qed.

Lemma prompt_lookup_menu boost fuel ign limits k :
  is_Some (prompt_user_for_menu_updates boost fuel ign limits !! k) <-> k ∈ menu_names.
Proof.
  unfold menu_names. rewrite !elem_of_cons, elem_of_nil. split.
  - intros [v Hv]. apply prompt_lookup in Hv. tauto.
  - unfold prompt_user_for_menu_updates.
    intros [->|[->|[->|[->|[]]]]]; rewrite !lookup_insert;
      repeat case_decide; try done; eauto.
Qed.

Lemma prompt_values_nonempty boost fuel ign limits k v :
  prompt_user_for_menu_updates boost fuel ign limits !! k = Some v -> v <> "".
Proof.
  intros H. apply prompt_lookup in H as [[_ ->]|[[_ ->]|[[_ ->]|[_ ->]]]];
    by apply answer_nonempty.
Qed.

Lemma prompt_values boost fuel ign limits k v :
  prompt_user_for_menu_updates boost fuel ign limits !! k = Some v ->
  v <> "" /\ strip v = v.
Proof.
  intros H. split; [by eapply prompt_values_nonempty|].
  apply prompt_lookup in H as [[_ ->]|[[_ ->]|[[_ ->]|[_ ->]]]];
    by apply answer_stripped, strip_ascii.
Qed.

Lemma find_first_id p l e :
  find_first p l = Some e -> update_first p (fun _ => e) l = l.
Proof.
  induction l as [|x l IH]; simpl; [done|].
  destruct (p x); [by intros [= ->]|]. intros H. by rewrite IH.
Qed.

Lemma for_each_quiet p body l :
  (forall e, snd (body e) = [] -> fst (body e) = e) ->
  snd (for_each p body l) = [] -> fst (for_each p body l) = l.
Proof.
  intros Hbody. induction l as [|x l IH]; simpl; [done|].
  destruct (p x).
  - specialize (Hbody x). destruct (body x) as [x' log1].
    destruct (for_each p body l) as [l' log2]. simpl in *.
    intros [-> ->]%app_eq_nil. by rewrite Hbody, IH.
  - destruct (for_each p body l) as [l' log2]. simpl in *.
    intros ->. by rewrite IH.
Qed.

Lemma rename_category_quiet rename_map cat :
  snd (rename_category rename_map cat) = [] -> fst (rename_category rename_map cat) = cat.
Proof. unfold rename_category. by destruct (rename_map !! _). Qed.

Lemma retitle_table_quiet table :
  snd (retitle_table table) = [] -> fst (retitle_table table) = table.
Proof.
  unfold retitle_table. destruct (find_first _ _) as [e|]; [|done].
  destruct (text e); [|done]. by destruct (negb _ && _).
Qed.

Lemma rename_in_header_quiet rename_map h :
  snd (rename_in_header rename_map h) = [] -> fst (rename_in_header rename_map h) = h.
Proof.
  unfold rename_in_header.
  pose proof (for_each_quiet (has_tag "CATEGORY") (rename_category rename_map)
                (children h) (rename_category_quiet rename_map)) as H.
  destruct (for_each _ _ (children h)) as [cats log]. simpl in *.
  intros Hlog. rewrite (H Hlog). apply with_children_id.
Qed.

Lemma rename_categories_quiet rename_map root :
  snd (rename_categories rename_map root) = [] -> renamed rename_map root = root.
Proof.
  unfold renamed, rename_categories.
  destruct (find_first (has_tag "XDFHEADER") (children root)) as [h|] eqn:Hh; [|done].
  simpl. intros Hlog.
  rewrite (update_first_found _ (fun h => fst (rename_in_header rename_map h)) _ _ Hh).
  rewrite (rename_in_header_quiet _ _ Hlog), (find_first_id _ _ _ Hh).
  apply with_children_id.
Qed.

Lemma retitle_tables_quiet root :
  snd (retitle_tables root) = [] -> fst (retitle_tables root) = root.
Proof.
  unfold retitle_tables.
  pose proof (for_each_quiet (has_tag "XDFTABLE") retitle_table (children root)
                retitle_table_quiet) as H.
  destruct (for_each _ _ (children root)) as [tables log]. simpl in *.
  intros Hlog. rewrite (H Hlog). apply with_children_id.
Qed.

Lemma run_log root rename_map :
  snd (update_xdf_for_high_performance root rename_map)
  = snd (rename_categories rename_map root)
    ++ snd (retitle_tables (renamed rename_map root)).
Proof.
  unfold update_xdf_for_high_performance, renamed.
  destruct (rename_categories rename_map root) as [root1 log1]. simpl.
  by destruct (retitle_tables root1).
Qed.

(** What a run leaves at the position of a table, and as the header. *)
Lemma run_table_at root rename_map k table :
  children root !! k = Some table -> has_tag "XDFTABLE" table = true ->
  children (fst (update_xdf_for_high_performance root rename_map)) !! k
  = Some (fst (retitle_table table)).
Proof.
  intros Hk Ht.
  assert (Hk1 : children (renamed rename_map root) !! k = Some table).
  { rewrite renamed_children. apply update_first_lookup_other; [done|].
    by apply (has_tag_distinct "XDFTABLE" "XDFHEADER"). }
  rewrite run_tree, retitle_tables_children, lookup_map, Hk1. simpl. by rewrite Ht.
Qed.

Lemma run_header root rename_map h :
  find_first (has_tag "XDFHEADER") (children root) = Some h ->
  find_first (has_tag "XDFHEADER")
    (children (fst (update_xdf_for_high_performance root rename_map)))
  = Some (fst (rename_in_header rename_map h)).
Proof.
  intros Hh. rewrite run_tree, retitle_tables_header, renamed_children.
  apply (find_update_same _ (fun h => fst (rename_in_header rename_map h)) _ _ Hh).
  rewrite rename_in_header_tag. by apply find_first_holds in Hh.
Qed.

Lemma contains_app needle p s :
  contains needle s = true -> contains needle (p ++ s)%string = true.
Proof.
  intros H. induction p as [|c p IH]; simpl; [done|].
  rewrite IH. apply orb_true_r.
Qed.

Lemma retitle_table_ignition table title_elem old_title :
  find_first (has_tag "title") (children table) = Some title_elem ->
  text title_elem = Some old_title ->
  contains "Ignition" old_title = true ->
  find_first (has_tag "title") (children (fst (retitle_table table)))
  = Some (set_text (Some ("RACE HIGH PERF " ++ old_title)%string) title_elem).
Proof.
  intros Hf Ht Hc. unfold retitle_table. rewrite Hf, Ht, ignition_test, Hc. simpl.
  apply (find_update_same _ (set_text _) _ _ Hf).
  rewrite has_tag_set_text. by apply find_first_holds in Hf.
Qed.

Lemma update_first_tags p f l :
  (forall e, tag (f e) = tag e) -> map tag (update_first p f l) = map tag l.
Proof.
  intros Hf. induction l as [|x l IH]; simpl; [done|].
  destruct (p x); simpl; by rewrite ?Hf, ?IH.
Qed.

End RenamerMoreFacts.

(** ** Properties of the interactive renamer beyond the claims *)

Section RenamerTheorems.

Local Open Scope list_scope.

Context `{builtins : !Builtins} `{ascii_methods : !AsciiLaws} `{strip_laws : !StripLaws}.

Lemma retitle_tables_eq root :
  fst (retitle_tables root)
  = with_children root
      (map (fun e => if has_tag "XDFTABLE" e then fst (retitle_table e) else e)
         (children root)).
Proof.
  unfold retitle_tables. rewrite <- for_each_map.
  by destruct (for_each _ _ (children root)).
Qed.

Lemma update_first_map p f (g : Element -> Element) l :
  (forall e, p (g e) = p e) -> (forall e, p e = true -> g e = e /\ g (f e) = f e) ->
  update_first p f (map g l) = map g (update_first p f l).
Proof.
  intros Hp Hg. induction l as [|x l IH]; simpl; [done|].
  rewrite Hp. destruct (p x) eqn:Hx; simpl.
  - destruct (Hg x Hx) as [-> ->]. done.
  - by rewrite IH.
Qed.

(** X17.  The map the prompts give has the four menu names as its keys and
    nothing else, and whatever is typed, no replacement name is empty or has
    whitespace around it: an answer of whitespace only counts as no answer. *)
Theorem prompt_map_keys_and_values boost fuel ign limits :
  (forall k,
     is_Some (prompt_user_for_menu_updates boost fuel ign limits !! k)
     <-> k ∈ menu_names) /\
  (forall k v,
     prompt_user_for_menu_updates boost fuel ign limits !! k = Some v ->
     v <> "" /\ strip v = v).
Proof.
  split; [apply prompt_lookup_menu|apply prompt_values].
Qed.

(** X18.  When none of the answers, trimmed, is one of the four menu names, the
    category-rename step with the map of the prompts is idempotent: a second
    run over the output renames nothing further. *)
Theorem prompted_rename_idempotent boost fuel ign limits root :
  Forall (fun typed => strip typed ∉ menu_names) [boost; fuel; ign; limits] ->
  renamed (prompt_user_for_menu_updates boost fuel ign limits)
    (renamed (prompt_user_for_menu_updates boost fuel ign limits) root)
  = renamed (prompt_user_for_menu_updates boost fuel ign limits) root.
Proof.
  intros H. apply renamed_twice. intros k v Hk.
  destruct (prompt_user_for_menu_updates boost fuel ign limits !! v) eqn:Hv; [|done].
  assert (Hin : v ∈ menu_names)
    by (apply (proj1 (prompt_lookup_menu boost fuel ign limits v)); eauto).
  rewrite !Forall_cons in H. destruct H as (Hb & Hf & Hi & Hl & _).
  assert (Hdefault : forall d, d ∈ ["RACE: Safety Limits"; "RACE: Spark & Timing";
                                    "RACE: Fuel & AFR"; "RACE: Maximum Boost Control"]
                               -> d ∉ menu_names).
  { intros d Hd Hm. unfold menu_names in Hm.
    rewrite !elem_of_cons, elem_of_nil in Hd, Hm.
    destruct Hd as [->|[->|[->|[->|[]]]]]; destruct Hm as [?|[?|[?|[?|[]]]]]; done. }
  apply prompt_lookup in Hk as [[_ ->]|[[_ ->]|[[_ ->]|[_ ->]]]];
    exfalso; revert Hin; apply answer_avoids; try done; apply Hdefault;
    rewrite !elem_of_cons; tauto.
Qed.

(** X19.  The title rename is not idempotent: a run over the output of a run
    puts the marker in front of an Ignition title a second time. *)
Theorem ignition_prefix_stacks map1 map2 root k table title_elem old_title :
  children root !! k = Some table ->
  has_tag "XDFTABLE" table = true ->
  find_first (has_tag "title") (children table) = Some title_elem ->
  text title_elem = Some old_title ->
  contains "Ignition" old_title = true ->
  exists table' title_elem',
    children (fst (update_xdf_for_high_performance
                     (fst (update_xdf_for_high_performance root map1)) map2)) !! k
    = Some table' /\
    find_first (has_tag "title") (children table') = Some title_elem' /\
    text title_elem' = Some ("RACE HIGH PERF RACE HIGH PERF " ++ old_title)%string.
Proof.
  intros Hk Ht Hf Hold Hc.
  pose proof (run_table_at root map1 k table Hk Ht) as Hk1.
  pose proof (retitle_table_ignition table title_elem old_title Hf Hold Hc) as Hf1.
  assert (Ht1 : has_tag "XDFTABLE" (fst (retitle_table table)) = true)
    by by rewrite retitle_table_tag.
  pose proof (run_table_at _ map2 k _ Hk1 Ht1) as Hk2.
  pose proof (retitle_table_ignition _ _ ("RACE HIGH PERF " ++ old_title)%string
                Hf1 eq_refl (contains_app _ _ _ Hc)) as Hf2.
  eexists _, _. split; [exact Hk2|]. split; [exact Hf2|]. done.
Qed.

(** X20.  A run leaves the root's own tag, attributes, text and tail, the tag
    of every child in its place, and every child that is neither an XDFHEADER
    nor an XDFTABLE exactly as it was. *)
Theorem renamer_frame root rename_map :
  with_children (fst (update_xdf_for_high_performance root rename_map)) (children root)
  = root /\
  map tag (children (fst (update_xdf_for_high_performance root rename_map)))
  = map tag (children root) /\
  (forall k e,
     children root !! k = Some e ->
     has_tag "XDFHEADER" e = false -> has_tag "XDFTABLE" e = false ->
     children (fst (update_xdf_for_high_performance root rename_map)) !! k = Some e).
Proof.
  rewrite run_tree, retitle_tables_eq, (renamed_eq rename_map root), renamed_children.
  simpl. split; [by destruct root|]. split.
  - rewrite map_map.
    rewrite <- (update_first_tags (has_tag "XDFHEADER")
                  (fun h => fst (rename_in_header rename_map h)) (children root)).
    + apply map_ext. intros e. destruct (has_tag "XDFTABLE" e) eqn:He; [|done].
      pose proof (retitle_table_tag e (tag e)) as H. unfold has_tag in H.
      rewrite String.eqb_refl in H. by apply String.eqb_eq in H.
    + intros e. pose proof (rename_in_header_tag rename_map e (tag e)) as H.
      unfold has_tag in H. rewrite String.eqb_refl in H. by apply String.eqb_eq in H.
  - intros k e Hk Hh Ht. rewrite lookup_map.
    rewrite (update_first_lookup_other _ _ _ _ _ Hk Hh). simpl. by rewrite Ht.
Qed.

(** X21.  The two loops of a run do not interfere: renaming the categories and
    then the titles leaves the tree that renaming the titles and then the
    categories leaves. *)
Theorem rename_steps_commute rename_map root :
  fst (retitle_tables (renamed rename_map root))
  = renamed rename_map (fst (retitle_tables root)).
Proof.
  rewrite !retitle_tables_eq, (renamed_eq rename_map (with_children _ _)).
  rewrite !renamed_children, (renamed_eq rename_map root), renamed_children. simpl.
  f_equal. symmetry. apply update_first_map.
  - intros e. destruct (has_tag "XDFTABLE" e); [apply retitle_table_tag|done].
  - intros e He. rewrite rename_in_header_tag.
    by rewrite (has_tag_distinct "XDFHEADER" "XDFTABLE" e) by done.
Qed.

(** X22.  A run that prints nothing has changed nothing: the tree it writes is
    the tree it read. *)
Theorem quiet_rename_changes_nothing root rename_map :
  snd (update_xdf_for_high_performance root rename_map) = [] ->
  fst (update_xdf_for_high_performance root rename_map) = root.
Proof.
  rewrite run_log, run_tree. intros [H1 H2]%app_eq_nil.
  rewrite (rename_categories_quiet _ _ H1) in *. by apply retitle_tables_quiet.
Qed.

(** X23.  [main] writes an output only when the XDF is there, and whatever is
    typed at the prompts, a category of the header that had a non-empty name
    has a non-empty name in the output. *)
Theorem main_keeps_categories_named
    xdf_file boost fuel ign limits root' log :
  Freedom.main xdf_file boost fuel ign limits = Freedom.Wrote root' log ->
  exists root,
    xdf_file = Some root /\
    forall h k cat name,
      find_first (has_tag "XDFHEADER") (children root) = Some h ->
      children h !! k = Some cat -> has_tag "CATEGORY" cat = true ->
      get cat "name" = Some name -> name <> "" ->
      exists h' cat' name',
        find_first (has_tag "XDFHEADER") (children root') = Some h' /\
        children h' !! k = Some cat' /\
        get cat' "name" = Some name' /\ name' <> "".
Proof.
  unfold Freedom.main. destruct xdf_file as [root|]; [|done].
  pose proof (run_header root (prompt_user_for_menu_updates boost fuel ign limits))
    as Hheader.
  destruct (update_xdf_for_high_performance root _) as [root1 log1] eqn:Hrun.
  intros [= <- <-]. exists root. split; [done|].
  intros h k cat name Hh Hk Hc Hname Hne. simpl in Hheader.
  exists (fst (rename_in_header (prompt_user_for_menu_updates boost fuel ign limits) h)),
    (fst (rename_category (prompt_user_for_menu_updates boost fuel ign limits) cat)).
  pose proof (rename_category_cases
                (prompt_user_for_menu_updates boost fuel ign limits) cat) as Hcases.
  destruct (prompt_user_for_menu_updates boost fuel ign limits
              !! default "" (get cat "name")) as [v|] eqn:Hv.
  - exists v. split; [by apply Hheader|]. split.
    + rewrite rename_in_header_children, lookup_map, Hk. simpl. by rewrite Hc.
    + rewrite Hcases, get_set. split; [done|].
      exact (prompt_values_nonempty _ _ _ _ _ _ Hv).
  - exists name. split; [by apply Hheader|]. split.
    + rewrite rename_in_header_children, lookup_map, Hk. simpl. by rewrite Hc.
    + by rewrite Hcases.
Qed.

End RenamerTheorems.
(** ** The claims on the sample documents *)

Import Samples.

(** The sample documents, rows and answers are ASCII text, on which the
    methods of [str] are the ASCII ones. *)
#[local] Existing Instance ascii_builtins.
#[local] Existing Instance ascii_laws.
#[local] Existing Instance ascii_upper_laws.
#[local] Existing Instance ascii_strip_laws.
#[local] Existing Instance ascii_strip_upper_laws.

(** The side conditions of a claim at a closed input are settled by running the
    definitions. *)
Ltac closed_instance :=
  first [reflexivity | discriminate | by vm_compute].

Lemma doc_no_later_boost j :
  (1 < j)%nat -> address_at doc j <> Some "0X4076A".
Proof.
  intros Hj. destruct j as [|[|[|j]]]; try lia; by vm_compute.
Qed.

(** C1: a row with an empty address cell, and one with no address at all, go
    through a run without a warning, although the index holds no entry for
    them. *)
Lemma empty_address_prints_no_warning :
  tables_by_addr doc !! normalized "" = None /\
  update_xdf_with_spreadsheet digits_float doc [row "Boost" (PStr "") (PInt 300) None]
  = Done doc [] /\
  update_xdf_with_spreadsheet digits_float doc [row "Boost" PNone (PInt 300) None]
  = Done doc [].
Proof. by vm_compute. Qed.

Lemma unresolved_row_warns_or_skips_witness :
  process_row digits_float (tables_by_addr doc)
    (row "Boost" (PStr " 0x99 ") (PInt 300) (Some "Race")) doc []
  = Done doc [Warning "0X99" (PStr "Boost")].
Proof.
  refine (proj2 (unresolved_row_warns_or_skips digits_float (tables_by_addr doc)
                   (row "Boost" (PStr " 0x99 ") (PInt 300) (Some "Race")) doc [])
            " 0x99 " eq_refl _ _); [discriminate|by vm_compute].
Defined.

(** C2: an address attribute that starts with a space is filed with the space,
    and the row whose address differs from it in case and whitespace only does
    not find the table. *)
Lemma padded_stored_address_unreachable :
  upper (strip " 0x4076A") = upper (strip "0x4076a") /\
  address_at doc_with_padded_address 1 = Some " 0X4076A" /\
  tables_by_addr doc_with_padded_address !! normalized "0x4076a" = None /\
  update_xdf_with_spreadsheet digits_float doc_with_padded_address
    [row "Boost" (PStr "0x4076a") (PInt 300) None]
  = Done doc_with_padded_address [Warning "0X4076A" (PStr "Boost")].
Proof. by vm_compute. Qed.

Lemma index_key_is_upper_address_witness :
  tables_by_addr doc !! upper "0x4076A" = Some 1%nat /\
  tables_by_addr doc !! normalized "  0x4076a " = Some 1%nat.
Proof.
  pose proof (index_key_is_upper_address digits_float doc 1
                (table "Boost Ceiling" "0x4076A" "255")
                (z_axis_of "0x4076A" "255")
                (leaf "EMBEDDEDDATA" [("mmedaddress", "0x4076A")] None) "0x4076A"
                eq_refl eq_refl eq_refl eq_refl eq_refl) as H.
  destruct H as [Hidx Hrow]; [discriminate|apply doc_no_later_boost|].
  split; [exact Hidx|].
  apply (Hrow (row "Boost" (PStr "  0x4076a ") PNone None) "  0x4076a " []);
    [reflexivity|discriminate|reflexivity].
Defined.

(** C3 on the sample document. *)
Lemma lowercase_address_sets_max_witness :
  exists root' log table',
    update_xdf_with_spreadsheet digits_float doc
      [row "Boost" (PStr "0x4076a") (PInt 300) (Some "Race: Max Boost")]
    = Done root' log /\
    children root' !! 1%nat = Some table' /\
    max_text table' = Some (Some "300.00").
Proof.
  apply (lowercase_address_sets_max digits_float doc 1
           (table "Boost Ceiling" "0x4076A" "255")
           (z_axis_of "0x4076A" "255")
           (leaf "EMBEDDEDDATA" [("mmedaddress", "0x4076A")] None)
           (leaf "max" [] (Some "255")));
    try reflexivity.
  apply doc_no_later_boost.
Defined.

(** C4: a run over a row whose bound cell holds text ends in ValueError; the
    row after it is never reached. *)
Lemma text_bound_run_raises :
  load_spreadsheet_data sheet_with_text_bound
  = Ok [ row "Boost" (PStr "0x4076A") (PStr "300") None;
         row "Timing" (PStr "0x50A10") (PInt 5) None ] /\
  update_xdf_with_spreadsheet digits_float doc
    [ row "Boost" (PStr "0x4076A") (PStr "300") None;
      row "Timing" (PStr "0x50A10") (PInt 5) None ]
  = Raised ValueError doc [] /\
  Spreadsheet.main digits_float (Some doc) (Some sheet_with_text_bound)
  = Spreadsheet.Uncaught ValueError [].
Proof. by vm_compute. Qed.

Lemma text_bound_aborts_witness :
  process_rows digits_float (tables_by_addr doc)
    [ row "Boost" (PStr "0x4076A") (PStr "high") (Some "Race");
      row "Timing" (PStr "0x50A10") (PInt 5) None ] doc []
  = Raised ValueError
      (put_table doc 1 (table "Race" "0x4076A" "255"))
      [RenamedTitle (PStr "Boost Ceiling") (PStr "Race") "0X4076A"].
Proof.
  etransitivity.
  - apply (text_bound_aborts digits_float (tables_by_addr doc)
             (row "Boost" (PStr "0x4076A") (PStr "high") (Some "Race"))
             [row "Timing" (PStr "0x50A10") (PInt 5) None] doc [] "0x4076A" 1
             (table "Boost Ceiling" "0x4076A" "255")
             (z_axis_of "0x4076A" "255") (leaf "max" [] (Some "255")) "high");
      closed_instance.
  - by vm_compute.
Defined.


(** C5 seen at work: the row changes the second of the two tables only. *)
Example duplicate_address_run :
  exists root' log,
    update_xdf_with_spreadsheet digits_float doc_with_duplicates
      [row "Boost" (PStr "0x4076a") (PInt 300) None] = Done root' log /\
    children root' !! 0%nat = children doc_with_duplicates !! 0%nat /\
    max_text <$> children root' !! 1%nat = Some (Some (Some "300.00")).
Proof. eexists _, _. by vm_compute. Qed.

(** C8 on the sample table whose max reads "n/a". *)
Lemma unparsable_old_max_is_overwritten_witness :
  exists table',
    process_rows digits_float (tables_by_addr doc)
      [row "Timing" (PStr "0x50a10") (PFloat (S754_finite false 3 (-1))) None] doc []
    = Done (put_table doc 2 table')
        [UpdatedMax None (PFloat (S754_finite false 3 (-1))) "0X50A10"] /\
    children (put_table doc 2 table') !! 2%nat = Some table' /\
    max_text table' = Some (Some "1.50").
Proof.
  destruct (unparsable_old_max_is_overwritten digits_float (tables_by_addr doc)
              (row "Timing" (PStr "0x50a10") (PFloat (S754_finite false 3 (-1))) None)
              [] doc [] "0x50a10" 2
              (table "Ignition Timing Base" "0x50A10" "n/a")
              (z_axis_of "0x50A10" "n/a") (leaf "max" [] (Some "n/a")) "1.50")
    as (table' & Hrun & Hat & Hmax & _); try closed_instance.
  by exists table'.
Defined.

(** C10 on the sample document. *)
Lemma zero_bound_written_empty_title_skipped_witness :
  exists table',
    process_row digits_float (tables_by_addr doc)
      (row "Boost" (PStr "0x4076A") (PInt 0) (Some "")) doc []
    = Done (put_table doc 1 table')
        [UpdatedMax (digits_float "255") (PInt 0) "0X4076A"] /\
    children (put_table doc 1 table') !! 1%nat = Some table' /\
    max_text table' = Some (Some "0.00") /\
    title_text table' = Some (Some "Boost Ceiling").
Proof.
  destruct (zero_bound_written_empty_title_skipped digits_float (tables_by_addr doc)
              (row "Boost" (PStr "0x4076A") (PInt 0) (Some "")) doc [] "0x4076A" 1
              (table "Boost Ceiling" "0x4076A" "255")
              (z_axis_of "0x4076A" "255") (leaf "max" [] (Some "255")))
    as (table' & Hrun & Hat & Hmax & Htitle); try closed_instance.
  by exists table'.
Defined.

(** C6: a category element inside a table keeps the name Fuel through the step
    and through the whole run, although Fuel is a key of the map. *)
Lemma category_in_table_keeps_name :
  exists path cat,
    node_at path doc_with_table_category = Some cat /\
    has_tag "CATEGORY" cat = true /\
    get cat "name" = Some "Fuel" /\
    default_map !! "Fuel" = Some "RACE: Fuel & AFR" /\
    node_at path (renamed default_map doc_with_table_category) = Some cat /\
    node_at path (fst (update_xdf_for_high_performance doc_with_table_category default_map))
    = Some cat.
Proof.
  exists [1; 1]%nat, (leaf "CATEGORY" [("name", "Fuel")] None). by vm_compute.
Qed.

Lemma header_categories_renamed_witness :
  exists xdf_header' cat',
    find_first (has_tag "XDFHEADER") (children (renamed default_map doc))
    = Some xdf_header' /\
    children xdf_header' !! 2%nat = Some cat' /\
    get cat' "name" = Some "RACE: Fuel & AFR" /\
    children xdf_header' !! 3%nat = children header !! 3%nat.
Proof.
  destruct (header_categories_renamed default_map doc header eq_refl)
    as (h' & Hfind & _ & Hcat & _).
  destruct (Hcat 2%nat (leaf "CATEGORY" [("index", "0x1"); ("name", "Fuel")] None)
              eq_refl eq_refl) as (fuel & Hfuel & Hname).
  destruct (Hcat 3%nat (leaf "CATEGORY" [("index", "0x2"); ("name", "Vanos")] None)
              eq_refl eq_refl) as (vanos & Hvanos & Hsame).
  exists h', fuel. vm_compute in Hname, Hsame. destruct Hname as [_ Hname].
  rewrite Hvanos, Hsame. done.
Defined.

(** C7 on the sample table titled "Ignition Timing Base". *)
Lemma ignition_titles_prefixed_witness :
  exists table' title_elem',
    children (fst (update_xdf_for_high_performance doc default_map)) !! 2%nat
    = Some table' /\
    find_first (has_tag "title") (children table') = Some title_elem' /\
    text title_elem' = Some "RACE HIGH PERF Ignition Timing Base".
Proof.
  exact (ignition_titles_prefixed default_map doc 2
           (table "Ignition Timing Base" "0x50A10" "n/a")
           (leaf "title" [] (Some "Ignition Timing Base")) eq_refl eq_refl eq_refl).
Defined.

(** C9: no document and no map whose replacements are not keys make two runs of
    the step differ from one. *)
Lemma no_unchained_map_breaks_idempotence :
  ~ exists rename_map root,
      no_value_is_key rename_map /\
      renamed rename_map (renamed rename_map root) <> renamed rename_map root.
Proof.
  intros (rename_map & root & Hm & Hne). apply Hne. by apply renamed_twice.
Qed.

(** ** The further properties on the sample documents *)

Section EditorInstances.

Local Open Scope list_scope.

(** X2 on the sample document. *)
Lemma index_keys_uppercase_witness :
  "0X50A10" <> "" /\ upper "0X50A10" = "0X50A10" /\
  exists table, children doc !! 2%nat = Some table /\ has_tag "XDFTABLE" table = true.
Proof.
  apply (index_keys_uppercase doc "0X50A10" 2). closed_instance.
Defined.

(** X3: three spaces in the address cell. *)
Lemma blank_address_warns_witness :
  process_row digits_float (tables_by_addr doc)
    (row "Boost" (PStr "   ") (PInt 300) None) doc []
  = Done doc [Warning "" (PStr "Boost")].
Proof.
  apply (blank_address_warns digits_float doc
           (row "Boost" (PStr "   ") (PInt 300) None) [] "   ");
    closed_instance.
Defined.

(** X4: the address typed with padding and in lower case, and its normalized
    form. *)
Lemma address_spelling_ignored_witness :
  process_row digits_float (tables_by_addr doc)
    (row "Boost" (PStr "0X4076A") (PInt 300) (Some "Race")) doc []
  = process_row digits_float (tables_by_addr doc)
      (row "Boost" (PStr " 0x4076a ") (PInt 300) (Some "Race")) doc [].
Proof.
  apply (address_spelling_ignored digits_float (tables_by_addr doc)
           (row "Boost" (PStr " 0x4076a ") (PInt 300) (Some "Race"))
           (row "Boost" (PStr "0X4076A") (PInt 300) (Some "Race")) doc [] " 0x4076a ");
    [reflexivity|discriminate|by repeat split|].
  right. right. reflexivity.
Defined.

(** X8: a sheet of rows that are all safe. *)
Lemma safe_rows_never_raise_witness :
  exists root' log,
    update_xdf_with_spreadsheet digits_float doc
      [ row "Boost" (PStr "0x4076a") (PInt 300) (Some "Race");
        row "Skipped" PNone (PBool true) None;
        row "Timing" (PStr "0x50A10") PNone (Some "Spark") ]
    = Done root' log /\
    write root' = Ok root'.
Proof.
  apply (safe_rows_never_raise digits_float doc); closed_instance.
Defined.

(** X10: a row that resolves and asks for nothing. *)
Lemma quiet_run_changes_nothing_witness :
  tree_of (update_xdf_with_spreadsheet digits_float doc
             [row "Boost" (PStr "0x4076a") PNone None]) = doc.
Proof.
  apply (quiet_run_changes_nothing digits_float doc
           [row "Boost" (PStr "0x4076a") PNone None]).
  closed_instance.
Defined.

(** X11: two rows with addresses the document does not have, around one
    without an address. *)
Lemma unresolved_rows_only_warn_witness :
  update_xdf_with_spreadsheet digits_float doc
    [ row "A" (PStr "0x1") (PInt 1) None;
      row "B" PNone (PInt 2) None;
      row "C" (PStr " 0x2 ") (PStr "x") (Some "T") ]
  = Done doc [Warning "0X1" (PStr "A"); Warning "0X2" (PStr "C")].
Proof.
  etransitivity.
  - apply (unresolved_rows_only_warn digits_float doc
             [ row "A" (PStr "0x1") (PInt 1) None;
               row "B" PNone (PInt 2) None;
               row "C" (PStr " 0x2 ") (PStr "x") (Some "T") ]).
    repeat constructor; closed_instance.
  - by vm_compute.
Defined.

(** X12: the second row renames the table again, and then fails on its bound. *)
Lemma last_title_wins_witness :
  exists table',
    children (tree_of (update_xdf_with_spreadsheet digits_float doc
                         ([row "Boost" (PStr "0x4076a") (PInt 300) (Some "First")]
                          ++ [row "Boost" (PStr " 0X4076A") (PStr "high") (Some "Second")])))
      !! 1%nat = Some table' /\
    title_text table' = Some (Some "Second").
Proof.
  eapply (last_title_wins digits_float doc
            [row "Boost" (PStr "0x4076a") (PInt 300) (Some "First")]
            (row "Boost" (PStr " 0X4076A") (PStr "high") (Some "Second"))
            _ _ " 0X4076A" 1 (table "Boost Ceiling" "0x4076A" "255") "Second");
    closed_instance.
Defined.

(** X13 on the table without a title. *)
Lemma missing_title_bound_applied_witness :
  exists table',
    process_row digits_float (tables_by_addr doc_with_gaps)
      (row "Load" (PStr "0xa0") (PInt 9) (Some "Race")) doc_with_gaps []
    = Done (put_table doc_with_gaps 0 table')
        [UpdatedMax (digits_float "7") (PInt 9) "0XA0"] /\
    max_text table' = Some (Some "9.00") /\
    title_text table' = None.
Proof.
  destruct (missing_title_bound_applied digits_float (tables_by_addr doc_with_gaps)
              (row "Load" (PStr "0xa0") (PInt 9) (Some "Race")) doc_with_gaps [] "0xa0" 0
              (node "XDFTABLE" [] [z_axis_of "0xA0" "7"]) (z_axis_of "0xA0" "7")
              (leaf "max" [] (Some "7")) "9.00")
    as (table' & Hrun & Hmax & Htitle); try closed_instance.
  by exists table'.
Defined.

(** X14 on the table without a max: the bound is text and nothing is raised. *)
Lemma missing_max_ignores_bound_witness :
  process_row digits_float (tables_by_addr doc_with_gaps)
    (row "Load" (PStr "0xb0") (PStr "high") (Some "Race")) doc_with_gaps []
  = Done
      (put_table doc_with_gaps 1
         (node "XDFTABLE" []
            [ leaf "title" [] (Some "Race");
              node "XDFAXIS" [("id", "z")]
                [leaf "EMBEDDEDDATA" [("mmedaddress", "0xB0")] None] ]))
      [RenamedTitle (PStr "Load Axis") (PStr "Race") "0XB0"].
Proof.
  etransitivity.
  - apply (missing_max_ignores_bound digits_float (tables_by_addr doc_with_gaps)
             (row "Load" (PStr "0xb0") (PStr "high") (Some "Race")) doc_with_gaps []
             "0xb0" 1
             (node "XDFTABLE" []
                [ leaf "title" [] (Some "Load Axis");
                  node "XDFAXIS" [("id", "z")]
                    [leaf "EMBEDDEDDATA" [("mmedaddress", "0xB0")] None] ]));
      closed_instance.
  - by vm_compute.
Defined.


End EditorInstances.

Section RenamerInstances.

(** X17 with one answer typed, one of spaces only and two left empty. *)
Lemma prompt_map_keys_and_values_witness :
  (forall k,
     is_Some (prompt_user_for_menu_updates " Boost " "   " "" "" !! k)
     <-> k ∈ menu_names) /\
  (forall k v,
     prompt_user_for_menu_updates " Boost " "   " "" "" !! k = Some v ->
     v <> "" /\ strip v = v).
Proof.
  exact (prompt_map_keys_and_values " Boost " "   " "" "").
Defined.

(** X18 with every answer left empty. *)
Lemma prompted_rename_idempotent_witness :
  renamed default_map (renamed default_map doc) = renamed default_map doc.
Proof.
  apply (prompted_rename_idempotent "" "" "" "" doc).
  repeat constructor; unfold menu_names; rewrite !elem_of_cons, elem_of_nil;
    intros [?|[?|[?|[?|[]]]]]; discriminate.
Defined.

(** X19 on the sample table titled "Ignition Timing Base". *)
Lemma ignition_prefix_stacks_witness :
  exists table' title_elem',
    children (fst (update_xdf_for_high_performance
                     (fst (update_xdf_for_high_performance doc default_map))
                     default_map)) !! 2%nat
    = Some table' /\
    find_first (has_tag "title") (children table') = Some title_elem' /\
    text title_elem' = Some "RACE HIGH PERF RACE HIGH PERF Ignition Timing Base".
Proof.
  exact (ignition_prefix_stacks default_map default_map doc 2
           (table "Ignition Timing Base" "0x50A10" "n/a")
           (leaf "title" [] (Some "Ignition Timing Base")) "Ignition Timing Base"
           eq_refl eq_refl eq_refl eq_refl eq_refl).
Defined.

(** X22 on a document with no menu category and no Ignition title. *)
Lemma quiet_rename_changes_nothing_witness :
  fst (update_xdf_for_high_performance doc_without_matches default_map)
  = doc_without_matches.
Proof.
  apply (quiet_rename_changes_nothing doc_without_matches default_map).
  closed_instance.
Defined.

(** X23: the Fuel category of the sample header after a run in which Fuel was
    answered with spaces. *)
Lemma main_keeps_categories_named_witness :
  exists h' cat' name',
    find_first (has_tag "XDFHEADER")
      (children (fst (update_xdf_for_high_performance doc
                        (prompt_user_for_menu_updates "Boost" "   " "" "Caps"))))
    = Some h' /\
    children h' !! 2%nat = Some cat' /\
    get cat' "name" = Some name' /\ name' <> "".
Proof.
  destruct (main_keeps_categories_named (Some doc) "Boost" "   " "" "Caps"
              (fst (update_xdf_for_high_performance doc
                      (prompt_user_for_menu_updates "Boost" "   " "" "Caps")))
              (snd (update_xdf_for_high_performance doc
                      (prompt_user_for_menu_updates "Boost" "   " "" "Caps"))))
    as (root & Hroot & Hcats).
  - unfold Freedom.main. by destruct (update_xdf_for_high_performance doc _).
  - injection Hroot as <-.
    apply (Hcats header 2%nat
             (leaf "CATEGORY" [("index", "0x1"); ("name", "Fuel")] None) "Fuel");
      closed_instance.
Defined.

End RenamerInstances.
